(** * search-mcp: the documentation search and page-read server

    A shallow embedding of [src/server.py] and the properties of its
    five tools.  Python values that cross the JSON boundary are modelled
    by [pyval]; Python [str] is a list of Unicode code points; the
    external collaborators (process environment, HTTP client,
    [json.loads], BeautifulSoup and markdownify, the builtin [repr] on
    [str]) are the fields of a [World]. *)

From Stdlib Require Import Ascii String.
From Stdlib Require Import List ZArith NArith Lia Bool.
Import ListNotations.

(** ** Python strings *)

Module PyStr.

(** A Python [str] is a sequence of code points. *)
Abbreviation char := N (only parsing).
Abbreviation str := (list N) (only parsing).

Fixpoint utf8_decode (bs : list N) : str :=
  match bs with
  | [] => []
  | b0 :: r0 =>
    if (b0 <? 128)%N then b0 :: utf8_decode r0
    else
      match r0 with
      | [] => []
      | b1 :: r1 =>
        if (b0 <? 224)%N
        then ((b0 - 192) * 64 + (b1 - 128))%N :: utf8_decode r1
        else
          match r1 with
          | [] => []
          | b2 :: r2 =>
            if (b0 <? 240)%N
            then ((b0 - 224) * 4096 + (b1 - 128) * 64 + (b2 - 128))%N
                   :: utf8_decode r2
            else
              match r2 with
              | [] => []
              | b3 :: r3 =>
                ((b0 - 240) * 262144 + (b1 - 128) * 4096
                 + (b2 - 128) * 64 + (b3 - 128))%N :: utf8_decode r3
              end
          end
      end
  end.

(** [lit "..."] is the Python literal written between the quotes (the
    Rocq literal holds its UTF-8 bytes). *)
Definition lit (s : String.string) : str :=
  utf8_decode (map N_of_ascii (String.list_ascii_of_string s)).
Arguments lit s%_string.

Definition nl : str := [10%N].

Fixpoint str_eqb (a b : str) : bool :=
  match a, b with
  | [], [] => true
  | x :: a', y :: b' => (x =? y)%N && str_eqb a' b'
  | _, _ => false
  end.

(** [s.startswith(p)] *)
Fixpoint startswith (p s : str) : bool :=
  match p, s with
  | [], _ => true
  | x :: p', y :: s' => (x =? y)%N && startswith p' s'
  | _ :: _, [] => false
  end.

(** [needle in hay] *)
Fixpoint contains (needle hay : str) : bool :=
  startswith needle hay ||
  match hay with
  | [] => false
  | _ :: hay' => contains needle hay'
  end.

(** [sep.join(parts)] on a list of strings *)
Fixpoint join (sep : str) (parts : list str) : str :=
  match parts with
  | [] => []
  | [p] => p
  | p :: rest => p ++ sep ++ join sep rest
  end.

(** [s.split('\n')]: never empty, one more piece than separators *)
Fixpoint split_lines (s : str) : list str :=
  match s with
  | [] => [[]]
  | c :: s' =>
    if (c =? 10)%N then [] :: split_lines s'
    else
      match split_lines s' with
      | [] => [[c]]
      | l :: ls => (c :: l) :: ls
      end
  end.

(** The code points [str.isspace] accepts, which are the ones
    [strip], [lstrip] and [rstrip] remove. *)
Definition isspace (c : char) : bool :=
  ((9 <=? c) && (c <=? 13) || (28 <=? c) && (c <=? 32)
   || (c =? 133) || (c =? 160) || (c =? 5760)
   || (8192 <=? c) && (c <=? 8202)
   || (c =? 8232) || (c =? 8233) || (c =? 8239) || (c =? 8287)
   || (c =? 12288))%N.

Fixpoint lstrip (s : str) : str :=
  match s with
  | [] => []
  | c :: s' => if isspace c then lstrip s' else s
  end.

Fixpoint rstrip (s : str) : str :=
  match s with
  | [] => []
  | c :: s' =>
    match rstrip s' with
    | [] => if isspace c then [] else [c]
    | r => c :: r
    end
  end.

Definition strip (s : str) : str := lstrip (rstrip s).

(** [s.lower()] on the ASCII letters; no other code point lowers to
    one of [h], [t], [m], [l], so the test ['html' in s.lower()] is
    the same. *)
Definition lower_char (c : char) : char :=
  if ((65 <=? c) && (c <=? 90))%N then (c + 32)%N else c.
Definition lower (s : str) : str := map lower_char s.

Definition digit_char (n : N) : char := (48 + n)%N.

Fixpoint uint_chars (d : Decimal.uint) : str :=
  match d with
  | Decimal.Nil => []
  | Decimal.D0 d => digit_char 0 :: uint_chars d
  | Decimal.D1 d => digit_char 1 :: uint_chars d
  | Decimal.D2 d => digit_char 2 :: uint_chars d
  | Decimal.D3 d => digit_char 3 :: uint_chars d
  | Decimal.D4 d => digit_char 4 :: uint_chars d
  | Decimal.D5 d => digit_char 5 :: uint_chars d
  | Decimal.D6 d => digit_char 6 :: uint_chars d
  | Decimal.D7 d => digit_char 7 :: uint_chars d
  | Decimal.D8 d => digit_char 8 :: uint_chars d
  | Decimal.D9 d => digit_char 9 :: uint_chars d
  end.

(** [str(z)] for an [int] *)
Definition dec (z : Z) : str :=
  match Z.to_int z with
  | Decimal.Pos d => uint_chars d
  | Decimal.Neg d => 45%N :: uint_chars d
  end.

End PyStr.
Import PyStr.

Arguments lit s%_string : simpl never.

(** ** Python values and exceptions *)

(** The values [json.loads] produces and [json.dumps] accepts.  A
    [float] is carried by its [repr]; a [dict] keeps insertion order and
    has [str] keys. *)
#[warnings="-register-all"]
Inductive pyval :=
| PNone
| PBool (b : bool)
| PInt (z : Z)
| PFloat (r : str)
| PStr (s : str)
| PList (l : list pyval)
| PDict (d : list (str * pyval)).

Inductive exn_class :=
| JSONDecodeError | KeyError | AttributeError | TypeError | IndexError
| ValueError | RecursionError
| ClientError | OtherException
| CancelledError | KeyboardInterrupt.

(** [exn_msg] is [str(e)]. *)
Record exn := mkExn { exn_cls : exn_class; exn_msg : str }.

(** [isinstance(e, Exception)]: cancellation and interpreter signals
    derive from [BaseException] only. *)
Definition is_Exception (e : exn) : bool :=
  match exn_cls e with
  | CancelledError | KeyboardInterrupt => false
  | _ => true
  end.

Definition is_KeyError (e : exn) : bool :=
  match exn_cls e with KeyError => true | _ => false end.

Definition is_JSONDecodeError (e : exn) : bool :=
  match exn_cls e with JSONDecodeError => true | _ => false end.

Inductive outcome (A : Type) :=
| Return (a : A)
| Raise (e : exn).
Arguments Return {A} a.
Arguments Raise {A} e.

Definition obind {A B} (m : outcome A) (k : A -> outcome B) : outcome B :=
  match m with
  | Return a => k a
  | Raise e => Raise e
  end.

Notation "'let?' x ':=' e 'in' k" := (obind e (fun x => k))
  (at level 10, x name, e at level 100, k at level 200).

Module Py.

(** CPython converts an [int] to decimal text up to
    [sys.get_int_max_str_digits()] digits, 4300 unless the interpreter
    is told otherwise: [str_limit] is the least magnitude it refuses. *)
Definition int_max_str_digits : Z := 4300.

Definition str_limit : Z := 10 ^ int_max_str_digits.

Definition msg_str_limit : str :=
  lit "Exceeds the limit (4300 digits) for integer string conversion; use sys.set_int_max_str_digits() to increase the limit".

(** [str(z)] for an [int] the caller chose, as an f-string field
    [{z}] computes it. *)
Definition int_str (z : Z) : outcome str :=
  if (str_limit <=? Z.abs z)%Z
  then Raise (mkExn ValueError msg_str_limit)
  else Return (dec z).

Definition type_name (v : pyval) : str :=
  match v with
  | PNone => lit "NoneType"
  | PBool _ => lit "bool"
  | PInt _ => lit "int"
  | PFloat _ => lit "float"
  | PStr _ => lit "str"
  | PList _ => lit "list"
  | PDict _ => lit "dict"
  end.

Fixpoint lookup (k : str) (d : list (str * pyval)) : option pyval :=
  match d with
  | [] => None
  | (k', v) :: d' => if str_eqb k k' then Some v else lookup k d'
  end.

(** [v.get(k, default)] *)
Definition get (v : pyval) (k : str) (default : pyval) : outcome pyval :=
  match v with
  | PDict d =>
    Return (match lookup k d with Some x => x | None => default end)
  | _ =>
    Raise (mkExn AttributeError
             (lit "'" ++ type_name v ++ lit "' object has no attribute 'get'"))
  end.

(** [len(v)] *)
Definition len (v : pyval) : outcome Z :=
  match v with
  | PStr s => Return (Z.of_nat (length s))
  | PList l => Return (Z.of_nat (length l))
  | PDict d => Return (Z.of_nat (length d))
  | _ =>
    Raise (mkExn TypeError
             (lit "object of type '" ++ type_name v ++ lit "' has no len()"))
  end.

(** [bool(v)] *)
Definition truthy (v : pyval) : bool :=
  match v with
  | PNone => false
  | PBool b => b
  | PInt z => negb (z =? 0)%Z
  | PFloat r => negb (str_eqb r (lit "0.0") || str_eqb r (lit "-0.0"))
  | PStr s => match s with [] => false | _ => true end
  | PList l => match l with [] => false | _ => true end
  | PDict d => match d with [] => false | _ => true end
  end.

(** the items [for x in v] visits *)
Definition iter (v : pyval) : outcome (list pyval) :=
  match v with
  | PStr s => Return (map (fun c => PStr [c]) s)
  | PList l => Return l
  | PDict d => Return (map (fun kv => PStr (fst kv)) d)
  | _ =>
    Raise (mkExn TypeError
             (lit "'" ++ type_name v ++ lit "' object is not iterable"))
  end.

(** [v[:3]]; a [dict] looks the slice up as a key, which a slice can
    be from Python 3.12 on ([hashable_slice]) and cannot be before. *)
Definition slice3 (hashable_slice : bool) (v : pyval) : outcome pyval :=
  match v with
  | PStr s => Return (PStr (firstn 3 s))
  | PList l => Return (PList (firstn 3 l))
  | PDict _ =>
    if hashable_slice
    then Raise (mkExn KeyError (lit "slice(None, 3, None)"))
    else Raise (mkExn TypeError (lit "unhashable type: 'slice'"))
  | _ =>
    Raise (mkExn TypeError
             (lit "'" ++ type_name v ++ lit "' object is not subscriptable"))
  end.

(** [v[0]]; a [dict] from JSON has no [int] key. *)
Definition item0 (v : pyval) : outcome pyval :=
  match v with
  | PStr s =>
    match s with
    | c :: _ => Return (PStr [c])
    | [] => Raise (mkExn IndexError (lit "string index out of range"))
    end
  | PList l =>
    match l with
    | x :: _ => Return x
    | [] => Raise (mkExn IndexError (lit "list index out of range"))
    end
  | PDict _ => Raise (mkExn KeyError (lit "0"))
  | _ =>
    Raise (mkExn TypeError
             (lit "'" ++ type_name v ++ lit "' object is not subscriptable"))
  end.

(** The items of [sep.join(items)] must all be [str]. *)
Fixpoint join_items (i : Z) (items : list pyval) : outcome (list str) :=
  match items with
  | [] => Return []
  | PStr s :: rest =>
    let? ss := join_items (i + 1) rest in Return (s :: ss)
  | x :: _ =>
    Raise (mkExn TypeError
             (lit "sequence item " ++ dec i ++ lit ": expected str instance, "
              ++ type_name x ++ lit " found"))
  end.

(** [sep.join(v)] *)
Definition join (sep : str) (v : pyval) : outcome str :=
  match v with
  | PStr _ | PList _ | PDict _ =>
    let? items := iter v in
    let? ss := join_items 0 items in
    Return (PyStr.join sep ss)
  | _ => Raise (mkExn TypeError (lit "can only join an iterable"))
  end.

(** [v != ''] *)
Definition ne_empty_str (v : pyval) : bool :=
  match v with
  | PStr [] => false
  | _ => true
  end.

Section Repr.
(** The builtin [repr] on [str] (quoting and escaping). *)
Variable repr_str : str -> str.

(** [repr] of a value whose [int]s are within the digit limit, as
    those of a parsed body are ([json.loads] refuses a longer literal):
    the text of an [int] is [dec z]. *)
Fixpoint repr (v : pyval) : str :=
  match v with
  | PNone => lit "None"
  | PBool true => lit "True"
  | PBool false => lit "False"
  | PInt z => dec z
  | PFloat r => r
  | PStr s => repr_str s
  | PList l => lit "[" ++ PyStr.join (lit ", ") (map repr l) ++ lit "]"
  | PDict d =>
    lit "{"
    ++ PyStr.join (lit ", ")
         (map (fun kv : str * pyval =>
                 let (k, x) := kv in repr_str k ++ lit ": " ++ repr x) d)
    ++ lit "}"
  end.

(** [str(v)], which is what an f-string field [{v}] inserts. *)
Definition to_str (v : pyval) : str :=
  match v with
  | PStr s => s
  | _ => repr v
  end.
End Repr.

End Py.

(** ** The world outside the server *)

(** What the code reads of an [aiohttp] response. *)
Record response := mkResponse {
  status : Z;
  reason : option str;
  content_type : option str;
  text : str
}.

(** The keyword arguments of [session.get] and [session.post]. *)
Record request := mkRequest {
  rq_url : str;
  rq_headers : option pyval;
  rq_cookies : option pyval;
  rq_json : option pyval
}.

Inductive event :=
| HttpGet (rq : request)
| HttpPost (rq : request)
| JsonLoads (s : str).

Record World := mkWorld {
  (** [os.getenv('INTRANET_SESSION_COOKIE')] *)
  getenv_cookie : option str;
  (** the request and [await response.text()]; a transport failure
      raises *)
  http_get : request -> outcome response;
  http_post : request -> outcome response;
  (** [json.loads] *)
  json_loads : str -> outcome pyval;
  (** BeautifulSoup parsing, removal of the sidebar and the scripts,
      and [markdownify] *)
  html_to_markdown : str -> outcome str;
  (** [repr] on [str] *)
  repr_str : str -> str;
  (** [str] on a [list], which prints the [repr] of its items and
      fails on an [int] beyond the digit limit or on nesting beyond the
      recursion limit *)
  str_of_list : list pyval -> outcome str;
  (** [json.dumps(..., indent=2)], which fails on the same *)
  json_dumps : pyval -> outcome str;
  (** whether a slice is hashable: Python 3.12 and later *)
  hashable_slice : bool
}.

(** ** Effects: the events issued so far, and exceptions *)

Definition M (A : Type) := list event -> outcome A * list event.

Definition mret {A} (a : A) : M A := fun tr => (Return a, tr).

Definition mbind {A B} (m : M A) (k : A -> M B) : M B :=
  fun tr =>
    match m tr with
    | (Return a, tr') => k a tr'
    | (Raise e, tr') => (Raise e, tr')
    end.

Definition lift {A} (o : outcome A) : M A := fun tr => (o, tr).

Definition emit (ev : event) : M unit := fun tr => (Return tt, tr ++ [ev]).

(** [try: a = body / except C as e: handler(e) / else: rest(a)], where
    [catches e] says that [e] is an instance of [C]. *)
Definition try_except_else {A B} (body : M A) (catches : exn -> bool)
    (handler : exn -> M B) (rest : A -> M B) : M B :=
  fun tr =>
    match body tr with
    | (Return a, tr') => rest a tr'
    | (Raise e, tr') => if catches e then handler e tr' else (Raise e, tr')
    end.

Definition try_except {A} (body : M A) (catches : exn -> bool)
    (handler : exn -> M A) : M A :=
  try_except_else body catches handler mret.

Notation "'let*' x ':=' e 'in' k" := (mbind e (fun x => k))
  (at level 10, x name, e at level 100, k at level 200).

(** ** server.py *)

Module AuthManager.

(** [bool(s)] of what [os.getenv] gave *)
Definition env_truthy (c : option str) : bool :=
  match c with
  | Some (_ :: _) => true
  | _ => false
  end.

Definition get_auth_headers (w : World) : list (str * pyval) :=
  match getenv_cookie w with
  | Some auth_cookie =>
    if env_truthy (Some auth_cookie)
    then [(lit "cookies", PDict [(lit "_oauth2_proxy", PStr auth_cookie)])]
    else []
  | None => []
  end.

Definition is_authenticated (w : World) : bool :=
  env_truthy (getenv_cookie w).

End AuthManager.

(** The tool response [{"content": [{"type": "text", "text": text}]}]. *)
Definition envelope (text : str) : pyval :=
  PDict [(lit "content",
          PList [PDict [(lit "type", PStr (lit "text"));
                        (lit "text", PStr text)]])].

Definition fmt (w : World) (v : pyval) : str := Py.to_str (repr_str w) v.

Definition fmt_reason (r : option str) : str :=
  match r with
  | Some s => s
  | None => lit "None"
  end.

Definition marker : str := lit "Sign in to GitHub".

(** The loop of lines 135 to 144, one line at a time, on
    [(cleaned_lines, prev_empty)]. *)
Definition clean_step (st : list str * bool) (line : str) : list str * bool :=
  let (cleaned_lines, prev_empty) := st in
  let line := rstrip line in
  let is_empty := (length line =? 0)%nat in
  if is_empty && prev_empty then (cleaned_lines, prev_empty)
  else (cleaned_lines ++ [line], is_empty).

(** Lines 130 to 146: from [markdown_content] to [content]. *)
Definition clean_markdown (markdown_content : str) : str :=
  let lines := split_lines markdown_content in
  let (cleaned_lines, _) := fold_left clean_step lines ([], false) in
  strip (join nl cleaned_lines).

Definition content_header (url : str) : str :=
  lit "# Content from " ++ url ++ nl ++ nl.

Definition add_auth (auth_config : list (str * pyval)) (rq : request)
  : request :=
  let rq :=
    match Py.lookup (lit "headers") auth_config with
    | Some h => mkRequest (rq_url rq) (Some h) (rq_cookies rq) (rq_json rq)
    | None => rq
    end in
  match Py.lookup (lit "cookies") auth_config with
  | Some c => mkRequest (rq_url rq) (rq_headers rq) (Some c) (rq_json rq)
  | None => rq
  end.

Definition session_get (w : World) (rq : request) : M response :=
  let* _ := emit (HttpGet rq) in lift (http_get w rq).

Definition session_post (w : World) (rq : request) : M response :=
  let* _ := emit (HttpPost rq) in lift (http_post w rq).

Definition loads (w : World) (s : str) : M pyval :=
  let* _ := emit (JsonLoads s) in lift (json_loads w s).

(** Lines 66 to 72: [request_kwargs]. *)
Definition read_request (w : World) (url : str) : request :=
  let auth_config := AuthManager.get_auth_headers w in
  add_auth auth_config (mkRequest url None None None).

(** Lines 103 and 104: ['html' in content_type]. *)
Definition is_html (response : response) : bool :=
  let content_type :=
    lower (match content_type response with
           | Some c => c
           | None => []
           end) in
  contains (lit "html") content_type.

Definition msg_auth_failed : str :=
  lit "❌ Authentication failed or expired. Please update your INTRANET_SESSION_COOKIE environment variable with a fresh cookie value.".

Definition _read_url_content (w : World) (url url_description : str)
  : M pyval :=
  try_except
    (let request_kwargs := read_request w url in
     let* response := session_get w request_kwargs in
     let response_text := text response in
     if contains marker response_text || (status response =? 401)%Z then
       mret (envelope msg_auth_failed)
     else if (status response =? 404)%Z then
       mret (envelope (lit "❌ Page not found: " ++ url))
     else if negb (status response =? 200)%Z then
       mret (envelope (lit "❌ HTTP " ++ dec (status response) ++ lit ": "
                       ++ fmt_reason (reason response)
                       ++ lit ". Please check the URL or try again."))
     else
       try_except
         (if is_html response then
            let* markdown_content := lift (html_to_markdown w response_text) in
            let content := clean_markdown markdown_content in
            mret (envelope (content_header url ++ content))
          else
            mret (envelope (content_header url ++ response_text)))
         is_Exception
         (fun e => mret (envelope (content_header url ++ response_text))))
    is_Exception
    (fun error =>
       mret (envelope (lit "Error accessing " ++ url ++ lit ": "
                       ++ exn_msg error))).

Definition d1 (k : String.string) (v : pyval) : pyval := PDict [(lit k, v)].

Definition weight_rule (field value : String.string) (weight : pyval) : pyval :=
  PDict [(lit "filter", d1 "term" (d1 field (PStr (lit value))));
         (lit "weight", weight)].

Definition base_query (term : str) : pyval :=
  d1 "function_score"
    (PDict
       [(lit "query",
         d1 "simple_query_string"
           (PDict
              [(lit "fields",
                PList [PStr (lit "title^5"); PStr (lit "uri^5");
                       PStr (lit "description^5"); PStr (lit "text")]);
               (lit "default_operator", PStr (lit "AND"));
               (lit "query", PStr term)]));
        (lit "functions",
         PList [weight_rule "type" "Intranet" (PInt 10);
                weight_rule "type" "Blog" (PFloat (lit "0.01"));
                weight_rule "breadcrumb_1" "changes" (PFloat (lit "0.0001"));
                weight_rule "breadcrumb_1" "api" (PFloat (lit "0.0001"))])]).

(** One turn of the loop of lines 232 to 234, on [(must_clauses, n)]. *)
Definition breadcrumb_step (st : list pyval * Z) (breadcrumb : pyval)
  : list pyval * Z :=
  let (must_clauses, n) := st in
  (must_clauses
     ++ [d1 "match" (PDict [(lit "breadcrumb_" ++ dec n, breadcrumb)])],
   (n + 1)%Z).

(** Lines 223 to 234. *)
Definition build_must_clauses (term type_filter : str)
    (breadcrumb_filter : list pyval) : list pyval :=
  let must_clauses := [base_query term] in
  let must_clauses :=
    if negb (str_eqb type_filter [])
    then must_clauses ++ [d1 "term" (d1 "type" (PStr type_filter))]
    else must_clauses in
  match breadcrumb_filter with
  | [] => must_clauses
  | _ => fst (fold_left breadcrumb_step breadcrumb_filter (must_clauses, 1%Z))
  end.

(** Lines 223 to 243. *)
Definition build_query (term type_filter : str)
    (breadcrumb_filter : list pyval) : pyval :=
  let must_clauses := build_must_clauses term type_filter breadcrumb_filter in
  if (1 <? length must_clauses)%nat
  then d1 "bool" (d1 "must" (PList must_clauses))
  else base_query term.

(** Lines 245 to 257. *)
Definition build_payload (term : str) (start_index size : Z)
    (type_filter : str) (breadcrumb_filter : list pyval) : pyval :=
  PDict
    [(lit "from", PInt start_index);
     (lit "size", PInt size);
     (lit "sort", PList [PStr (lit "_score")]);
     (lit "_source",
      d1 "excludes" (PList [PStr (lit "text"); PStr (lit "body")]));
     (lit "query", build_query term type_filter breadcrumb_filter);
     (lit "highlight",
      d1 "fields"
        (PDict
           [(lit "body",
             PDict [(lit "type", PStr (lit "unified"));
                    (lit "number_of_fragments", PInt 1);
                    (lit "no_match_size", PInt 200);
                    (lit "fragment_size", PInt 150)]);
            (lit "title",
             PDict [(lit "type", PStr (lit "unified"));
                    (lit "number_of_fragments", PInt 1)])]))].

(** The f-string of the debug log of lines 343 to 345 is evaluated
    whatever the log level. *)
Fixpoint debug_log_hits (hits : list pyval) : outcome unit :=
  match hits with
  | [] => Return tt
  | hit :: rest =>
    let? source := Py.get hit (lit "_source") (PDict []) in
    let? _ := Py.get source (lit "type") (PStr (lit "N/A")) in
    let? _ := Py.get source (lit "breadcrumb_1") (PStr (lit "N/A")) in
    let? _ := Py.get source (lit "title") (PStr (lit "N/A")) in
    debug_log_hits rest
  end.

(** The body of the loop of lines 357 to 375: [body] after one hit. *)
Definition render_hit (w : World) (body : str) (n : Z) (hit : pyval)
  : outcome str :=
  let? source := Py.get hit (lit "_source") (PDict []) in
  let? title := Py.get source (lit "title") (PStr []) in
  let? description := Py.get source (lit "description") (PStr []) in
  let? uri := Py.get source (lit "url") (PStr (lit "No URL")) in
  let? number := Py.int_str n in
  let body :=
    body ++ number ++ lit ". **[" ++ fmt w title ++ lit "]("
         ++ fmt w uri ++ lit ")**" ++ nl in
  let? type := Py.get source (lit "type") (PStr (lit "Unknown")) in
  let body := body ++ lit "   **Type:** " ++ fmt w type ++ nl in
  let? breadcrumb := Py.get source (lit "breadcrumb") (PList []) in
  let? path := Py.join (lit " / ") breadcrumb in
  let body := body ++ lit "   **Breadcrumb:** " ++ path ++ nl in
  let body :=
    if Py.ne_empty_str description
    then body ++ lit "   **Description:** " ++ fmt w description ++ nl
    else body in
  let? highlight := Py.get hit (lit "highlight") (PDict []) in
  let? fragments := Py.get highlight (lit "body") (PList [PStr []]) in
  let? excerpt := Py.item0 fragments in
  let body :=
    if Py.truthy excerpt
    then body ++ lit "   **Excerpt:** " ++ fmt w excerpt ++ nl
    else body in
  Return (body ++ nl).

(** The loop of lines 357 to 375 on [(body, n)]. *)
Fixpoint render_hits (w : World) (hits : list pyval) (body : str) (n : Z)
  : outcome str :=
  match hits with
  | [] => Return body
  | hit :: rest =>
    let? body := render_hit w body n hit in
    render_hits w rest body (n + 1)%Z
  end.

Definition public_note : str :=
  lit "ℹ️ **Note:** Searching public documentation only. For intranet access, set the INTRANET_SESSION_COOKIE environment variable."
  ++ nl ++ nl.

(** Lines 337 to 377: the report, or the exception the block raises. *)
Definition render_report (w : World) (is_authenticated : bool) (term : str)
    (start_index : Z) (response_json : pyval) : outcome str :=
  let? top := Py.get response_json (lit "hits") (PDict []) in
  let? hits := Py.get top (lit "hits") (PList []) in
  let? total_hits := Py.get top (lit "total") (PInt 0) in
  let? n_hits := Py.len hits in
  let? _ :=
    if Py.truthy hits then
      let? first := Py.slice3 (hashable_slice w) hits in
      let? items := Py.iter first in
      debug_log_hits items
    else Return tt in
  let body := lit "# Search results for " ++ term ++ nl ++ nl in
  let body := if negb is_authenticated then body ++ public_note else body in
  let body :=
    body ++ lit "Showing " ++ dec n_hits ++ lit " out of "
         ++ fmt w total_hits ++ lit " search results" in
  let? offset :=
    if (start_index >? 0)%Z
    then let? number := Py.int_str (start_index + 1) in
         Return (lit ", starting at " ++ number)
    else Return [] in
  let body := body ++ offset in
  let body := body ++ nl ++ nl in
  let n := (start_index + 1)%Z in
  let? items := Py.iter hits in
  render_hits w items body n.

Definition msg_expired : str :=
  lit "❌ Authentication expired. Your INTRANET_SESSION_COOKIE has expired."
  ++ nl ++ nl
  ++ lit "To search public documentation, remove the INTRANET_SESSION_COOKIE environment variable and try again."
  ++ nl ++ nl
  ++ lit "To continue accessing intranet resources, update INTRANET_SESSION_COOKIE with a fresh cookie value.".

Definition msg_required : str :=
  lit "❌ Authentication required for this resource. Please set the INTRANET_SESSION_COOKIE environment variable.".

Definition msg_html : str :=
  lit "❌ Got HTML response instead of expected JSON. The search endpoint may be unavailable or requires authentication.".

Definition msg_intranet_filter : str :=
  lit "❌ Cannot search Intranet resources without authentication. Please set the INTRANET_SESSION_COOKIE environment variable or search without the Intranet filter.".

Definition search_url (is_authenticated : bool) : str :=
  if is_authenticated
  then lit "https://intranet.giantswarm.io/searchapi/"
  else lit "https://docs.giantswarm.io/searchapi/".

(** Lines 265 to 281: [request_kwargs]. *)
Definition search_request (w : World) (payload : pyval) : request :=
  let is_authenticated := AuthManager.is_authenticated w in
  let url := search_url is_authenticated in
  let auth_config :=
    if is_authenticated then AuthManager.get_auth_headers w else [] in
  let request_kwargs := mkRequest url None None None in
  let request_kwargs :=
    if is_authenticated then add_auth auth_config request_kwargs
    else request_kwargs in
  mkRequest (rq_url request_kwargs) (rq_headers request_kwargs)
            (rq_cookies request_kwargs) (Some payload).

(** Lines 260 to 262: the f-strings of the debug log are evaluated
    whatever the log level, before the first [try]: [str] of the
    breadcrumb filter, then [json.dumps] of the payload. *)
Definition debug_search_parameters (w : World)
    (breadcrumb_filter : list pyval) (payload : pyval) : outcome unit :=
  let? _ := str_of_list w breadcrumb_filter in
  let? _ := json_dumps w payload in
  Return tt.

(** Line 294: the f-string of the debug log prints the parsed body
    back with [json.dumps], inside the [try] of the parse. *)
Definition debug_parsed_json (w : World) (response_json : pyval)
  : outcome unit :=
  let? _ := json_dumps w response_json in
  Return tt.

Definition search (w : World) (term : str) (start_index size : Z)
    (type_filter : str) (breadcrumb_filter : list pyval) : M pyval :=
  let is_authenticated := AuthManager.is_authenticated w in
  let url := search_url is_authenticated in
  if negb is_authenticated && str_eqb type_filter (lit "Intranet") then
    mret (envelope msg_intranet_filter)
  else
    let payload :=
      build_payload term start_index size type_filter breadcrumb_filter in
    let* _ := lift (debug_search_parameters w breadcrumb_filter payload) in
    try_except
      (let request_kwargs := search_request w payload in
       let* response := session_post w request_kwargs in
       let response_text := text response in
       try_except_else
         (let* response_json := loads w response_text in
          let* _ := lift (debug_parsed_json w response_json) in
          mret response_json)
         is_JSONDecodeError
         (fun e =>
            mret (envelope
                    (lit "❌ Invalid JSON response from server." ++ nl ++ nl
                     ++ lit "Response status: " ++ dec (status response) ++ nl
                     ++ lit "Response preview: " ++ firstn 200 response_text)))
         (fun response_json =>
            if contains marker response_text || (status response =? 401)%Z then
              if is_authenticated then mret (envelope msg_expired)
              else mret (envelope msg_required)
            else if startswith (lit "<") (strip response_text) then
              if is_authenticated then mret (envelope msg_expired)
              else mret (envelope msg_html)
            else if negb (status response =? 200)%Z then
              mret (envelope (lit "❌ HTTP " ++ dec (status response) ++ lit ": "
                              ++ fmt_reason (reason response)
                              ++ lit ". Please try again."))
            else
              try_except
                (let* body :=
                   lift (render_report w is_authenticated term start_index
                           response_json) in
                 mret (envelope body))
                is_KeyError
                (fun e =>
                   mret (envelope
                           (lit "❌ Unexpected response format. Missing key: "
                            ++ exn_msg e)))))
      is_Exception
      (fun error =>
         mret (envelope (lit "Error accessing " ++ url ++ lit ": "
                         ++ exn_msg error))).

Definition search_runbook (w : World) (term : str) (start_index size : Z)
  : M pyval :=
  if negb (AuthManager.is_authenticated w) then
    mret (envelope
            (lit "❌ This tool requires authentication." ++ nl ++ nl
             ++ lit "Runbooks are internal intranet resources. Please set the INTRANET_SESSION_COOKIE environment variable."))
  else
    search w term start_index size []
           [PStr (lit "support-and-ops"); PStr (lit "runbooks")].

Definition search_ops_recipe (w : World) (term : str) (start_index size : Z)
  : M pyval :=
  if negb (AuthManager.is_authenticated w) then
    mret (envelope
            (lit "❌ This tool requires authentication." ++ nl ++ nl
             ++ lit "Ops Recipes are internal intranet resources. Please set the INTRANET_SESSION_COOKIE environment variable."))
  else
    search w term start_index size []
           [PStr (lit "support-and-ops"); PStr (lit "ops-recipes")].

Definition read_intranet_url (w : World) (url : str) : M pyval :=
  if negb (AuthManager.is_authenticated w) then
    mret (envelope
            (lit "❌ This tool requires authentication." ++ nl ++ nl
             ++ lit "The intranet requires authentication via the INTRANET_SESSION_COOKIE environment variable."))
  else if negb (startswith (lit "https://intranet.giantswarm.io/") url) then
    mret (envelope (lit "❌ URL must be from the Giant Swarm intranet (https://intranet.giantswarm.io/)."))
  else _read_url_content w url (lit "Intranet").

Definition read_handbook_url (w : World) (url : str) : M pyval :=
  if negb (startswith (lit "https://handbook.giantswarm.io/") url) then
    mret (envelope (lit "❌ URL must be from the Giant Swarm handbook (https://handbook.giantswarm.io/)."))
  else _read_url_content w url (lit "Handbook").

(** A call of one of the five tools, with well-typed arguments. *)
Inductive tool_call :=
| CallSearch (term : str) (start_index size : Z) (type_filter : str)
             (breadcrumb_filter : list pyval)
| CallSearchRunbook (term : str) (start_index size : Z)
| CallSearchOpsRecipe (term : str) (start_index size : Z)
| CallReadIntranetUrl (url : str)
| CallReadHandbookUrl (url : str).

Definition run_tool (w : World) (c : tool_call) : M pyval :=
  match c with
  | CallSearch term start_index size type_filter breadcrumb_filter =>
    search w term start_index size type_filter breadcrumb_filter
  | CallSearchRunbook term start_index size =>
    search_runbook w term start_index size
  | CallSearchOpsRecipe term start_index size =>
    search_ops_recipe w term start_index size
  | CallReadIntranetUrl url => read_intranet_url w url
  | CallReadHandbookUrl url => read_handbook_url w url
  end.

(** ** Reading a built query *)

(** The clauses a query ANDs together: the [must] list of a [bool]
    query, the query itself otherwise. *)
Definition and_clauses (query : pyval) : list pyval :=
  match query with
  | PDict [(k, PDict [(k', PList clauses)])] =>
    if str_eqb k (lit "bool") && str_eqb k' (lit "must")
    then clauses else [query]
  | _ => [query]
  end.

(** [{"match": {field: value}}] *)
Definition as_match (clause : pyval) : option (str * pyval) :=
  match clause with
  | PDict [(k, PDict [(field, value)])] =>
    if str_eqb k (lit "match") then Some (field, value) else None
  | _ => None
  end.

Fixpoint positional_matches (clauses : list pyval) : list (str * pyval) :=
  match clauses with
  | [] => []
  | c :: rest =>
    match as_match c with
    | Some m => m :: positional_matches rest
    | None => positional_matches rest
    end
  end.

Definition breadcrumb_field (i : nat) : str :=
  lit "breadcrumb_" ++ dec (Z.of_nat i).

(** ** What a computation can end with *)

Definition raises_only_Exception {A} (o : outcome A) : Prop :=
  match o with
  | Return _ => True
  | Raise e => is_Exception e = true
  end.

Create HintDb pyexn.

(** The collaborators fail with exceptions derived from [Exception]
    (transport errors, decoding errors, parser errors), not with a
    cancellation or an interpreter signal. *)
Record well_behaved (w : World) : Prop := {
  wb_get : forall rq, raises_only_Exception (http_get w rq);
  wb_post : forall rq, raises_only_Exception (http_post w rq);
  wb_loads : forall s, raises_only_Exception (json_loads w s);
  wb_dumps : forall v, raises_only_Exception (json_dumps w v);
  wb_markdown : forall s, raises_only_Exception (html_to_markdown w s)
}.

Definition M_raises_only_Exception {A} (m : M A) : Prop :=
  forall tr, raises_only_Exception (fst (m tr)).

(** [m] returns a tool response, or raises something [except Exception]
    catches. *)
Definition envelope_or_Exception (m : M pyval) : Prop :=
  forall tr,
    match fst (m tr) with
    | Return v => exists text, v = envelope text
    | Raise e => is_Exception e = true
    end.

Definition returns_envelope (m : M pyval) : Prop :=
  forall tr, exists text tr', m tr = (Return (envelope text), tr').

(** ** Worlds for the examples *)

Definition quote_char : str := [34%N].

(** The JSON text of a value whose strings need no escape (on one
    line). *)
Fixpoint dumps (v : pyval) : str :=
  match v with
  | PNone => lit "null"
  | PBool true => lit "true"
  | PBool false => lit "false"
  | PInt z => dec z
  | PFloat r => r
  | PStr s => quote_char ++ s ++ quote_char
  | PList l => lit "[" ++ join (lit ", ") (map dumps l) ++ lit "]"
  | PDict d =>
    lit "{"
    ++ join (lit ", ")
         (map (fun kv : str * pyval =>
                 let (k, x) := kv in
                 quote_char ++ k ++ quote_char ++ lit ": " ++ dumps x) d)
    ++ lit "}"
  end.

(** An [int] beyond the digit limit somewhere in [v]. *)
Fixpoint has_big_int (v : pyval) : bool :=
  match v with
  | PInt z => (Py.str_limit <=? Z.abs z)%Z
  | PList l => existsb has_big_int l
  | PDict d => existsb (fun kv : str * pyval => has_big_int (snd kv)) d
  | _ => false
  end.

Definition quoted (s : str) : str := lit "'" ++ s ++ lit "'".

(** A world for examples: fixed answers of the upstream, the parser
    and the converter; [repr] of a [str] without quotes or escapes in
    it; printing that refuses an [int] beyond the digit limit; Python
    3.11. *)
Definition mock (cookie : option str) (resp : outcome response)
    (parsed : outcome pyval) (converted : outcome str) : World :=
  mkWorld cookie (fun _ => resp) (fun _ => resp) (fun _ => parsed)
          (fun _ => converted) quoted
          (fun l =>
             if has_big_int (PList l)
             then Raise (mkExn ValueError Py.msg_str_limit)
             else Return (Py.repr quoted (PList l)))
          (fun v =>
             if has_big_int v
             then Raise (mkExn ValueError Py.msg_str_limit)
             else Return (dumps v))
          false.

(** The answer to the search request passed every check of lines 291
    to 331: it parsed and the debug line printed it back, it has
    neither the sign-in marker nor status 401, it does not start with
    markup, and its status is 200. *)
Record classified_success (w : World) (resp : response)
    (response_json : pyval) : Prop := {
  cs_parsed : json_loads w (text resp) = Return response_json;
  cs_printed : debug_parsed_json w response_json = Return tt;
  cs_no_marker : contains marker (text resp) = false;
  cs_not_markup : startswith (lit "<") (strip (text resp)) = false;
  cs_status : status resp = 200%Z
}.

(** The events of one search: the request, then the parse of its
    answer. *)
Definition search_events (w : World) (payload : pyval) (resp : response)
  : list event :=
  [HttpPost (search_request w payload); JsonLoads (text resp)].

(** The answer to a page request passed the checks of lines 83 to 98
    and declares HTML. *)
Record fetched_html (resp : response) : Prop := {
  fh_no_marker : contains marker (text resp) = false;
  fh_status : status resp = 200%Z;
  fh_html : is_html resp = true
}.

(** A sign-in page, as the identity provider serves it with status
    200, and a world whose upstream answers with it; [json.loads]
    rejects it at its first character. *)
Definition login_page : str :=
  lit "<!DOCTYPE html><html><head><title>Sign in to GitHub</title></head><body><h1>Sign in to GitHub to continue</h1></body></html>".

Definition login_world : World :=
  mock None
       (Return (mkResponse 200 (Some (lit "OK"))
                           (Some (lit "text/html; charset=utf-8")) login_page))
       (Raise (mkExn JSONDecodeError
                     (lit "Expecting value: line 1 column 1 (char 0)")))
       (Return (lit "# Sign in to GitHub to continue")).

(** ** The report, piece by piece *)

(** [search] got past its guard and its debug lines, sent the
    request, and the answer was classified a success. *)
Record success_response (w : World) (term : str) (start_index size : Z)
    (type_filter : str) (breadcrumb_filter : list pyval) (resp : response)
    (response_json : pyval) : Prop := {
  sr_guard :
    AuthManager.is_authenticated w = true \/ type_filter <> lit "Intranet";
  sr_debug :
    debug_search_parameters w breadcrumb_filter
      (build_payload term start_index size type_filter breadcrumb_filter)
    = Return tt;
  sr_post :
    http_post w
      (search_request w
         (build_payload term start_index size type_filter breadcrumb_filter))
    = Return resp;
  sr_classified : classified_success w resp response_json
}.

(** The numbers a report of [count] hits from [start_index] on prints
    are within the digit limit. *)
Definition numbers_printable (start_index : Z) (count : nat) : Prop :=
  (- Py.str_limit <= start_index
   /\ start_index + 1 + Z.of_nat count < Py.str_limit)%Z.

(** The call reaches lines 260 to 262 only with arguments they can
    print. *)
Definition debug_returns (w : World) (c : tool_call) : Prop :=
  match c with
  | CallSearch term start_index size type_filter breadcrumb_filter =>
    debug_search_parameters w breadcrumb_filter
      (build_payload term start_index size type_filter breadcrumb_filter)
    = Return tt
  | CallSearchRunbook term start_index size =>
    debug_search_parameters w
      [PStr (lit "support-and-ops"); PStr (lit "runbooks")]
      (build_payload term start_index size []
         [PStr (lit "support-and-ops"); PStr (lit "runbooks")])
    = Return tt
  | CallSearchOpsRecipe term start_index size =>
    debug_search_parameters w
      [PStr (lit "support-and-ops"); PStr (lit "ops-recipes")]
      (build_payload term start_index size []
         [PStr (lit "support-and-ops"); PStr (lit "ops-recipes")])
    = Return tt
  | CallReadIntranetUrl _ | CallReadHandbookUrl _ => True
  end.

(** The title and, without a credential, the note. *)
Definition report_head (is_authenticated : bool) (term : str) : str :=
  lit "# Search results for " ++ term ++ nl ++ nl
  ++ (if is_authenticated then [] else public_note).

Definition opt_default {A} (d : A) (o : option A) : A :=
  match o with
  | Some x => x
  | None => d
  end.

(** The fields of a hit record, each present or missing. *)
Record hit_fields := mkHit {
  hf_title : option str;
  hf_url : option str;
  hf_type : option str;
  hf_breadcrumb : option (list str);
  hf_description : option str;
  hf_excerpt : option str
}.

Definition source_is (source : list (str * pyval)) (f : hit_fields) : Prop :=
  Py.lookup (lit "title") source = option_map PStr (hf_title f)
  /\ Py.lookup (lit "url") source = option_map PStr (hf_url f)
  /\ Py.lookup (lit "type") source = option_map PStr (hf_type f)
  /\ Py.lookup (lit "breadcrumb") source
     = option_map (fun b => PList (map PStr b)) (hf_breadcrumb f)
  /\ Py.lookup (lit "description") source
     = option_map PStr (hf_description f).

Definition excerpt_is (hit : list (str * pyval)) (f : hit_fields) : Prop :=
  match Py.lookup (lit "highlight") hit with
  | None => hf_excerpt f = None
  | Some (PDict highlight) =>
    match Py.lookup (lit "body") highlight with
    | None => hf_excerpt f = None
    | Some (PList (PStr e :: _)) => hf_excerpt f = Some e
    | Some _ => False
    end
  | Some _ => False
  end.

(** [hit] is an engine record with the fields [f], any of them
    missing; other keys are free. *)
Definition hit_record (hit : pyval) (f : hit_fields) : Prop :=
  match hit with
  | PDict h =>
    match Py.lookup (lit "_source") h with
    | None => source_is [] f
    | Some (PDict source) => source_is source f
    | Some _ => False
    end
    /\ excerpt_is h f
  | _ => False
  end.

(** The entry of a hit: defaults for missing fields, description and
    excerpt lines only for non-empty values. *)
Definition rendered_entry (n : Z) (f : hit_fields) : str :=
  dec n ++ lit ". **[" ++ opt_default [] (hf_title f) ++ lit "]("
  ++ opt_default (lit "No URL") (hf_url f) ++ lit ")**" ++ nl
  ++ lit "   **Type:** " ++ opt_default (lit "Unknown") (hf_type f) ++ nl
  ++ lit "   **Breadcrumb:** "
  ++ join (lit " / ") (opt_default [] (hf_breadcrumb f)) ++ nl
  ++ match hf_description f with
     | Some (c :: d) => lit "   **Description:** " ++ (c :: d) ++ nl
     | _ => []
     end
  ++ match hf_excerpt f with
     | Some (c :: e) => lit "   **Excerpt:** " ++ (c :: e) ++ nl
     | _ => []
     end
  ++ nl.

Fixpoint numbered_entries (n : Z) (fs : list hit_fields) : list str :=
  match fs with
  | [] => []
  | f :: rest => rendered_entry n f :: numbered_entries (n + 1) rest
  end.

(** An upstream that answers every search with the JSON text of
    [body], status 200. *)
Definition json_response (body : pyval) : response :=
  mkResponse 200 (Some (lit "OK")) (Some (lit "application/json"))
             (dumps body).

Definition answering (cookie : option str) (body : pyval) : World :=
  mock cookie (Return (json_response body)) (Return body) (Return []).

(** A full hit, and a hit that has only an empty [_source]. *)
Definition hit_full : pyval :=
  PDict
    [(lit "_index", PStr (lit "docs"));
     (lit "_score", PFloat (lit "12.5"));
     (lit "_source",
      PDict [(lit "title", PStr (lit "A"));
             (lit "url", PStr (lit "u"));
             (lit "type", PStr (lit "Docs"));
             (lit "breadcrumb", PList [PStr (lit "x"); PStr (lit "y")]);
             (lit "description", PStr (lit "About A"))]);
     (lit "highlight",
      PDict [(lit "body", PList [PStr (lit "an <em>A</em> excerpt")])])].

Definition hit_bare : pyval := PDict [(lit "_source", PDict [])].

Definition fields_full : hit_fields :=
  mkHit (Some (lit "A")) (Some (lit "u")) (Some (lit "Docs"))
        (Some [lit "x"; lit "y"]) (Some (lit "About A"))
        (Some (lit "an <em>A</em> excerpt")).

Definition fields_bare : hit_fields := mkHit None None None None None None.

Definition two_hits : pyval :=
  PDict [(lit "took", PInt 3);
         (lit "hits",
          PDict [(lit "total", PInt 57);
                 (lit "hits", PList [hit_full; hit_bare])])].

Definition entry_full (n : String.string) : str :=
  lit n ++ lit ". **[A](u)**" ++ nl
  ++ lit "   **Type:** Docs" ++ nl
  ++ lit "   **Breadcrumb:** x / y" ++ nl
  ++ lit "   **Description:** About A" ++ nl
  ++ lit "   **Excerpt:** an <em>A</em> excerpt" ++ nl ++ nl.

Definition entry_bare (n : String.string) : str :=
  lit n ++ lit ". **[](No URL)**" ++ nl
  ++ lit "   **Type:** Unknown" ++ nl
  ++ lit "   **Breadcrumb:** " ++ nl ++ nl.

(** What [search("A", start_index=30)] shows for [two_hits], with a
    credential. *)
Definition two_hits_page2 : str :=
  lit "# Search results for A" ++ nl ++ nl
  ++ lit "Showing 2 out of 57 search results, starting at 31" ++ nl ++ nl
  ++ entry_full "31" ++ entry_bare "32".

(** The same from the first hit on, without a credential. *)
Definition two_hits_page1 : str :=
  lit "# Search results for A" ++ nl ++ nl ++ public_note
  ++ lit "Showing 2 out of 57 search results" ++ nl ++ nl
  ++ entry_full "1" ++ entry_bare "2".

(** The report for a body without [hits], without a credential. *)
Definition no_hits_report (term : str) : str :=
  lit "# Search results for " ++ term ++ nl ++ nl ++ public_note
  ++ lit "Showing 0 out of 0 search results" ++ nl ++ nl.

(** ** Blank lines, as the specification words them *)

Definition is_empty (l : str) : bool :=
  match l with
  | [] => true
  | _ => false
  end.

(** Every run of blank lines becomes one blank line: a blank line
    that another blank line follows is dropped. *)
Fixpoint collapse_blank_runs (ls : list str) : list str :=
  match ls with
  | [] => []
  | l :: rest =>
    match l, rest with
    | [], [] :: _ => collapse_blank_runs rest
    | _, _ => l :: collapse_blank_runs rest
    end
  end.

Fixpoint drop_leading_blank (ls : list str) : list str :=
  match ls with
  | [] :: rest => drop_leading_blank rest
  | _ => ls
  end.

Fixpoint drop_trailing_blank (ls : list str) : list str :=
  match ls with
  | [] => []
  | l :: rest =>
    match drop_trailing_blank rest with
    | [] => if is_empty l then [] else [l]
    | rest' => l :: rest'
    end
  end.

(** [strip] also takes the leading white space of the first line
    left. *)
Definition lstrip_head (ls : list str) : list str :=
  match ls with
  | [] => []
  | l :: rest => lstrip l :: rest
  end.

(** The lines of the normalized text: right-trimmed, runs of blank
    lines collapsed, leading and trailing blank lines removed. *)
Definition normalized_lines (markdown_content : str) : list str :=
  lstrip_head
    (drop_leading_blank
       (drop_trailing_blank
          (collapse_blank_runs (map rstrip (split_lines markdown_content))))).

Definition starts_blank (ls : list str) : bool :=
  match ls with
  | l :: _ => is_empty l
  | [] => false
  end.

(** Two blank lines in a row somewhere. *)
Fixpoint has_blank_run (ls : list str) : bool :=
  match ls with
  | [] => false
  | l :: rest => is_empty l && starts_blank rest || has_blank_run rest
  end.

Fixpoint ends_blank (ls : list str) : bool :=
  match ls with
  | [] => false
  | [l] => is_empty l
  | _ :: rest => ends_blank rest
  end.

(** The loop of lines 135 to 144 as a function of [prev_empty] and the
    right-trimmed lines still to come. *)
Fixpoint kept_lines (prev_empty : bool) (ls : list str) : list str :=
  match ls with
  | [] => []
  | l :: rest =>
    if is_empty l && prev_empty then kept_lines prev_empty rest
    else l :: kept_lines (is_empty l) rest
  end.

(** A line [rstrip] leaves as it is. *)
Definition trimmed (l : str) : Prop := rstrip l = l.

(** Converted text with blank lines in front, a run of three in the
    middle, trailing white space and blank lines at the end. *)
Definition spaced_markdown : str :=
  nl ++ nl ++ lit "  # Title  " ++ nl ++ nl ++ lit "   " ++ nl ++ nl
  ++ lit "- item" ++ nl ++ lit "  - nested" ++ nl ++ nl ++ nl.

Definition html_page : response :=
  mkResponse 200 (Some (lit "OK")) (Some (lit "text/html; charset=utf-8"))
             (lit "<html><body><h1>Title</h1><ul><li>item<ul><li>nested</li></ul></li></ul></body></html>").

Definition serving (converted : outcome str) : World :=
  mock None (Return html_page) (Return PNone) converted.

(** How many times [k] is a key of a [dict], anywhere inside [v]. *)
Fixpoint count_key (k : str) (v : pyval) : nat :=
  match v with
  | PList l => list_sum (map (count_key k) l)
  | PDict d =>
    list_sum
      (map (fun kv : str * pyval =>
              let (k', x) := kv in
              (if str_eqb k' k then 1 else 0) + count_key k x)%nat d)
  | _ => 0%nat
  end.

Definition nonblank (l : str) : bool := negb (is_empty l).

(** ** More of the server's behaviour *)

(** The cookies a request carries: the session cookie under
    [_oauth2_proxy] when the variable holds a non-empty value. *)
Definition session_cookies (w : World) : option pyval :=
  match getenv_cookie w with
  | Some (c :: s) => Some (PDict [(lit "_oauth2_proxy", PStr (c :: s))])
  | _ => None
  end.

Definition is_dict (v : pyval) : bool :=
  match v with
  | PDict _ => true
  | _ => false
  end.



Definition no_newline (l : str) : Prop := ~ In 10%N l.

Definition runbook_filter : list pyval :=
  [PStr (lit "support-and-ops"); PStr (lit "runbooks")].

Definition ops_recipe_filter : list pyval :=
  [PStr (lit "support-and-ops"); PStr (lit "ops-recipes")].

Definition msg_runbook_auth : str :=
  lit "❌ This tool requires authentication." ++ nl ++ nl
  ++ lit "Runbooks are internal intranet resources. Please set the INTRANET_SESSION_COOKIE environment variable.".

Definition msg_ops_recipe_auth : str :=
  lit "❌ This tool requires authentication." ++ nl ++ nl
  ++ lit "Ops Recipes are internal intranet resources. Please set the INTRANET_SESSION_COOKIE environment variable.".

Definition msg_intranet_auth : str :=
  lit "❌ This tool requires authentication." ++ nl ++ nl
  ++ lit "The intranet requires authentication via the INTRANET_SESSION_COOKIE environment variable.".

Definition msg_intranet_url : str :=
  lit "❌ URL must be from the Giant Swarm intranet (https://intranet.giantswarm.io/).".

Definition msg_handbook_url : str :=
  lit "❌ URL must be from the Giant Swarm handbook (https://handbook.giantswarm.io/).".

(** A hit the engine matched on the title only, with an empty list of
    body fragments, after a full hit. *)
Definition hit_no_fragments : pyval :=
  PDict [(lit "_source", PDict [(lit "title", PStr (lit "B"))]);
         (lit "highlight", PDict [(lit "body", PList [])])].


Definition hits_with_empty_highlight : list (str * pyval) :=
  [(lit "total", PInt 2);
   (lit "hits", PList ([hit_full] ++ hit_no_fragments :: []))].

Definition empty_highlight_body : list (str * pyval) :=
  [(lit "hits", PDict hits_with_empty_highlight)].

(** * Properties *)

Section QueryBuilder.

Variable term : str.

Lemma breadcrumb_loop (bf : list pyval) :
  forall (acc : list pyval) (k : nat),
    fold_left breadcrumb_step bf (acc, Z.of_nat k) =
    (acc ++ map (fun fb : str * pyval =>
                   d1 "match" (PDict [(fst fb, snd fb)]))
                (combine (map breadcrumb_field (seq k (length bf))) bf),
     Z.of_nat (k + length bf)).
Proof.
  induction bf as [|b bf IH]; intros acc k.
  - simpl. now rewrite app_nil_r, Nat.add_0_r.
  - cbn [fold_left breadcrumb_step length seq map combine].
    replace (Z.of_nat k + 1)%Z with (Z.of_nat (S k)) by lia.
    rewrite IH, <- app_assoc. cbn [app fst snd].
    unfold breadcrumb_field at 2.
    now replace (S k + length bf)%nat with (k + S (length bf))%nat by lia.
Qed.

Lemma positional_matches_app (a b : list pyval) :
  positional_matches (a ++ b) = positional_matches a ++ positional_matches b.
Proof.
  induction a as [|c a IH]; [reflexivity|].
  simpl. destruct (as_match c); [|exact IH].
  now rewrite IH.
Qed.

Lemma positional_matches_match (fbs : list (str * pyval)) :
  positional_matches
    (map (fun fb : str * pyval => d1 "match" (PDict [(fst fb, snd fb)])) fbs)
  = fbs.
Proof.
  induction fbs as [|[f b] fbs IH]; [reflexivity|].
  cbn [map positional_matches fst snd].
  change (as_match (d1 "match" (PDict [(f, b)]))) with (Some (f, b)).
  now rewrite IH.
Qed.

Lemma build_must_clauses_eq (type_filter : str) (bf : list pyval) :
  build_must_clauses term type_filter bf =
  base_query term
  :: (if str_eqb type_filter [] then []
      else [d1 "term" (d1 "type" (PStr type_filter))])
  ++ map (fun fb : str * pyval => d1 "match" (PDict [(fst fb, snd fb)]))
         (combine (map breadcrumb_field (seq 1 (length bf))) bf).
Proof.
  unfold build_must_clauses.
  destruct bf as [|b bf].
  - cbn [length seq map combine]. rewrite app_nil_r.
    now destruct (str_eqb type_filter []).
  - change 1%Z with (Z.of_nat 1). rewrite breadcrumb_loop. cbn [fst].
    now destruct (str_eqb type_filter []).
Qed.

End QueryBuilder.

Lemma str_eqb_eq (a b : str) : str_eqb a b = true <-> a = b.
Proof.
  revert b; induction a as [|x a IH]; intros [|y b]; simpl;
    try (split; [discriminate|discriminate]); [tauto|].
  rewrite andb_true_iff, N.eqb_eq, IH.
  split; [intros [-> ->]; reflexivity | intros [= -> ->]; auto].
Qed.

Lemma str_eqb_refl (a : str) : str_eqb a a = true.
Proof. now apply str_eqb_eq. Qed.

Lemma str_eqb_neq (a b : str) : str_eqb a b = false <-> a <> b.
Proof.
  rewrite <- str_eqb_eq. destruct (str_eqb a b); split; congruence.
Qed.

(** C5: a breadcrumb filter of length N puts exactly N positional match
    clauses into the query, on [breadcrumb_1] to [breadcrumb_N], with the
    values in the order of the input. *)
Theorem breadcrumb_filter_positional (term type_filter : str)
    (breadcrumb_filter : list pyval) :
  positional_matches
    (and_clauses (build_query term type_filter breadcrumb_filter))
  = combine (map breadcrumb_field (seq 1 (length breadcrumb_filter)))
            breadcrumb_filter
  /\ length (positional_matches
               (and_clauses (build_query term type_filter breadcrumb_filter)))
     = length breadcrumb_filter.
Proof.
  assert (E : positional_matches
                (and_clauses (build_query term type_filter breadcrumb_filter))
              = combine (map breadcrumb_field
                             (seq 1 (length breadcrumb_filter)))
                        breadcrumb_filter).
  { unfold build_query. rewrite build_must_clauses_eq.
    set (ms := combine _ _).
    destruct (1 <? _)%nat eqn:L.
    - change (and_clauses (d1 "bool" (d1 "must" (PList ?cs)))) with cs.
      change (base_query term :: ?a ++ ?b) with ([base_query term] ++ a ++ b).
      rewrite !positional_matches_app, positional_matches_match.
      now destruct (str_eqb type_filter []).
    - apply Nat.ltb_ge in L. cbn [length] in L.
      rewrite length_app, length_map in L.
      destruct ms; [reflexivity | cbn [length] in L; lia]. }
  split; [exact E|].
  rewrite E, length_combine, length_map, length_seq. lia.
Qed.

(** C6: with a type filter or a non-empty breadcrumb filter the query
    is [bool]/[must] and the base scored query is one of its clauses;
    with neither it is the base scored query itself. *)
Theorem query_wraps_base_iff_filtered (term type_filter : str)
    (breadcrumb_filter : list pyval) :
  (type_filter <> [] \/ breadcrumb_filter <> [] ->
   exists filters,
     filters <> [] /\
     build_query term type_filter breadcrumb_filter
     = d1 "bool" (d1 "must" (PList (base_query term :: filters))))
  /\ (type_filter = [] /\ breadcrumb_filter = [] ->
      build_query term type_filter breadcrumb_filter = base_query term).
Proof.
  unfold build_query. rewrite build_must_clauses_eq. split.
  - intros H. eexists. split; [|].
    2:{ destruct (1 <? _)%nat eqn:L; [reflexivity|].
        apply Nat.ltb_ge in L. cbn [length] in L.
        rewrite length_app, length_map, length_combine, length_map,
          length_seq, Nat.min_id in L.
        destruct H as [H|H].
        - apply str_eqb_neq in H. rewrite H in L. cbn [length] in L. lia.
        - destruct breadcrumb_filter; [congruence | cbn [length] in L; lia]. }
    destruct H as [H|H].
    + apply str_eqb_neq in H. rewrite H. discriminate.
    + destruct breadcrumb_filter; [congruence|].
      destruct (str_eqb type_filter []); discriminate.
  - intros [-> ->]. reflexivity.
Qed.

Lemma query_wraps_base_iff_filtered_witness :
  (exists filters,
     filters <> [] /\
     build_query (lit "cilium") (lit "Docs") [PStr (lit "docs")]
     = d1 "bool" (d1 "must" (PList (base_query (lit "cilium") :: filters))))
  /\ build_query (lit "cilium") [] [] = base_query (lit "cilium").
Proof.
  split.
  - apply (proj1 (query_wraps_base_iff_filtered
                    (lit "cilium") (lit "Docs") [PStr (lit "docs")])).
    left. discriminate.
  - apply (proj2 (query_wraps_base_iff_filtered (lit "cilium") [] [])).
    split; reflexivity.
Defined.

(** ** Which exceptions the code can raise *)

Lemma Return_safe {A} (a : A) : raises_only_Exception (Return a).
Proof. exact I. Qed.

Lemma obind_safe {A B} (m : outcome A) (k : A -> outcome B) :
  raises_only_Exception m ->
  (forall a, raises_only_Exception (k a)) ->
  raises_only_Exception (obind m k).
Proof. destruct m; simpl; auto. Qed.

Lemma get_safe v k d : raises_only_Exception (Py.get v k d).
Proof. destruct v; exact I || reflexivity. Qed.

Lemma len_safe v : raises_only_Exception (Py.len v).
Proof. destruct v; exact I || reflexivity. Qed.

Lemma iter_safe v : raises_only_Exception (Py.iter v).
Proof. destruct v; exact I || reflexivity. Qed.

Lemma slice3_safe h v : raises_only_Exception (Py.slice3 h v).
Proof. destruct v, h; exact I || reflexivity. Qed.

Lemma int_str_safe z : raises_only_Exception (Py.int_str z).
Proof. unfold Py.int_str. destruct (_ <=? _)%Z; exact I || reflexivity. Qed.

Lemma item0_safe v : raises_only_Exception (Py.item0 v).
Proof. destruct v as [| | | |[|]|[|]|]; exact I || reflexivity. Qed.

Lemma join_items_safe items : forall i, raises_only_Exception (Py.join_items i items).
Proof.
  induction items as [|x items IH]; intros i; [exact I|].
  destruct x; try reflexivity.
  cbn [Py.join_items]. apply obind_safe; [apply IH | intros; exact I].
Qed.

Lemma join_safe sep v : raises_only_Exception (Py.join sep v).
Proof.
  destruct v; try reflexivity; unfold Py.join;
    (apply obind_safe; [apply iter_safe | intros ?]);
    (apply obind_safe; [apply join_items_safe | intros ?; exact I]).
Qed.

#[local] Hint Resolve Return_safe get_safe len_safe iter_safe slice3_safe
  item0_safe join_safe join_items_safe int_str_safe : pyexn.

Ltac safe_steps :=
  cbv zeta;
  repeat (first
    [ apply Return_safe
    | apply obind_safe; [solve [auto with pyexn] | intros ?; cbv zeta] ]).

Lemma debug_log_hits_safe hits : raises_only_Exception (debug_log_hits hits).
Proof.
  induction hits as [|hit rest IH]; [exact I|].
  cbn [debug_log_hits]. safe_steps. exact IH.
Qed.

Lemma render_hit_safe w body n hit :
  raises_only_Exception (render_hit w body n hit).
Proof. unfold render_hit. safe_steps. Qed.

Lemma render_hits_safe w hits :
  forall body n, raises_only_Exception (render_hits w hits body n).
Proof.
  induction hits as [|hit rest IH]; intros body n; [exact I|].
  cbn [render_hits]. apply obind_safe; [apply render_hit_safe | intros; apply IH].
Qed.

Lemma render_report_safe w is_authenticated term start_index response_json :
  raises_only_Exception
    (render_report w is_authenticated term start_index response_json).
Proof.
  unfold render_report. safe_steps.
  apply obind_safe.
  { destruct (Py.truthy a0); [|exact I]. safe_steps. apply debug_log_hits_safe. }
  intros _. cbv zeta. apply obind_safe.
  { destruct (start_index >? 0)%Z; [|exact I]. safe_steps. }
  intros offset. safe_steps. apply render_hits_safe.
Qed.

(** ** Every path ends in the envelope *)

Lemma mret_envelope text : returns_envelope (mret (envelope text)).
Proof. intros tr. now exists text, tr. Qed.

Lemma returns_envelope_weaken m :
  returns_envelope m -> envelope_or_Exception m.
Proof.
  intros H tr. destruct (H tr) as (text & tr' & ->). now exists text.
Qed.

Lemma if_returns_envelope (b : bool) m1 m2 :
  returns_envelope m1 -> returns_envelope m2 ->
  returns_envelope (if b then m1 else m2).
Proof. now destruct b. Qed.

Lemma if_envelope_or_Exception (b : bool) m1 m2 :
  envelope_or_Exception m1 -> envelope_or_Exception m2 ->
  envelope_or_Exception (if b then m1 else m2).
Proof. now destruct b. Qed.

Lemma lift_safe {A} (o : outcome A) :
  raises_only_Exception o -> M_raises_only_Exception (lift o).
Proof. intros H tr. exact H. Qed.

Lemma mbind_safe {A B} (m : M A) (k : A -> M B) :
  M_raises_only_Exception m ->
  (forall a, M_raises_only_Exception (k a)) ->
  M_raises_only_Exception (mbind m k).
Proof.
  intros Hm Hk tr. unfold mbind. specialize (Hm tr).
  destruct (m tr) as [[a|e] tr']; [apply Hk | exact Hm].
Qed.

Lemma emit_safe ev : M_raises_only_Exception (emit ev).
Proof. intros tr. exact I. Qed.

Lemma mbind_envelope_or_Exception {A} (m : M A) (k : A -> M pyval) :
  M_raises_only_Exception m ->
  (forall a, envelope_or_Exception (k a)) ->
  envelope_or_Exception (mbind m k).
Proof.
  intros Hm Hk tr. unfold mbind. specialize (Hm tr).
  destruct (m tr) as [[a|e] tr']; [apply Hk | exact Hm].
Qed.

Lemma try_except_else_envelope_or_Exception {A} (body : M A) catches
    handler rest :
  M_raises_only_Exception body ->
  (forall e, envelope_or_Exception (handler e)) ->
  (forall a, envelope_or_Exception (rest a)) ->
  envelope_or_Exception (try_except_else body catches handler rest).
Proof.
  intros Hb Hh Hr tr. unfold try_except_else. specialize (Hb tr).
  destruct (body tr) as [[a|e] tr']; [apply Hr|].
  destruct (catches e); [apply Hh | exact Hb].
Qed.

Lemma try_except_Exception_returns body handler :
  envelope_or_Exception body ->
  (forall e, returns_envelope (handler e)) ->
  returns_envelope (try_except body is_Exception handler).
Proof.
  intros Hb Hh tr. unfold try_except, try_except_else. specialize (Hb tr).
  destruct (body tr) as [[v|e] tr']; simpl in Hb.
  - destruct Hb as [text ->]. now exists text, tr'.
  - rewrite Hb. apply Hh.
Qed.

Lemma try_except_KeyError_envelope_or_Exception body handler :
  envelope_or_Exception body ->
  (forall e, returns_envelope (handler e)) ->
  envelope_or_Exception (try_except body is_KeyError handler).
Proof.
  intros Hb Hh tr. unfold try_except, try_except_else. specialize (Hb tr).
  destruct (body tr) as [[v|e] tr']; simpl in Hb; [exact Hb|].
  destruct (is_KeyError e); [|exact Hb].
  now apply returns_envelope_weaken.
Qed.

Section Totality.

Variable w : World.
Hypothesis Hw : well_behaved w.

Lemma session_get_safe rq : M_raises_only_Exception (session_get w rq).
Proof.
  apply mbind_safe; [apply emit_safe | intros _; apply lift_safe, Hw].
Qed.

Lemma session_post_safe rq : M_raises_only_Exception (session_post w rq).
Proof.
  apply mbind_safe; [apply emit_safe | intros _; apply lift_safe, Hw].
Qed.

Lemma loads_safe s : M_raises_only_Exception (loads w s).
Proof.
  apply mbind_safe; [apply emit_safe | intros _; apply lift_safe, Hw].
Qed.

Lemma parsed_and_printed_safe s :
  M_raises_only_Exception
    (let* response_json := loads w s in
     let* _ := lift (debug_parsed_json w response_json) in
     mret response_json).
Proof.
  apply mbind_safe; [apply loads_safe|]. intros response_json.
  apply mbind_safe; [|intros _ tr; exact I].
  apply lift_safe. unfold debug_parsed_json.
  apply obind_safe; [apply Hw | intros _; exact I].
Qed.

Lemma read_url_content_returns_envelope url url_description :
  returns_envelope (_read_url_content w url url_description).
Proof.
  unfold _read_url_content.
  apply try_except_Exception_returns; [|intros e; apply mret_envelope].
  cbv zeta. apply mbind_envelope_or_Exception; [apply session_get_safe|].
  intros response.
  repeat (apply if_envelope_or_Exception;
          [apply returns_envelope_weaken, mret_envelope|]).
  apply returns_envelope_weaken, try_except_Exception_returns;
    [|intros e; apply mret_envelope].
  apply if_envelope_or_Exception;
    [|apply returns_envelope_weaken, mret_envelope].
  apply mbind_envelope_or_Exception; [apply lift_safe, Hw|].
  intros md. apply returns_envelope_weaken, mret_envelope.
Qed.

Lemma search_returns_envelope term start_index size type_filter
    breadcrumb_filter :
  debug_search_parameters w breadcrumb_filter
    (build_payload term start_index size type_filter breadcrumb_filter)
  = Return tt ->
  returns_envelope
    (search w term start_index size type_filter breadcrumb_filter).
Proof.
  intros Hd. unfold search. cbv zeta.
  apply if_returns_envelope; [apply mret_envelope|].
  rewrite Hd. change (mbind (lift (Return tt)) ?k) with (k tt). cbv beta.
  apply try_except_Exception_returns; [|intros e; apply mret_envelope].
  apply mbind_envelope_or_Exception; [apply session_post_safe|].
  intros response.
  apply try_except_else_envelope_or_Exception;
    [apply parsed_and_printed_safe
    |intros e; apply returns_envelope_weaken, mret_envelope|].
  intros response_json.
  apply if_envelope_or_Exception;
    [apply if_envelope_or_Exception;
     apply returns_envelope_weaken, mret_envelope|].
  apply if_envelope_or_Exception;
    [apply if_envelope_or_Exception;
     apply returns_envelope_weaken, mret_envelope|].
  apply if_envelope_or_Exception;
    [apply returns_envelope_weaken, mret_envelope|].
  apply try_except_KeyError_envelope_or_Exception;
    [|intros e; apply mret_envelope].
  apply mbind_envelope_or_Exception;
    [apply lift_safe, render_report_safe|].
  intros body. apply returns_envelope_weaken, mret_envelope.
Qed.

Lemma run_tool_returns_envelope (c : tool_call) :
  debug_returns w c -> returns_envelope (run_tool w c).
Proof.
  destruct c; cbn [run_tool debug_returns]; intros Hd.
  - now apply search_returns_envelope.
  - apply if_returns_envelope;
      [apply mret_envelope | now apply search_returns_envelope].
  - apply if_returns_envelope;
      [apply mret_envelope | now apply search_returns_envelope].
  - apply if_returns_envelope; [apply mret_envelope|].
    apply if_returns_envelope;
      [apply mret_envelope | apply read_url_content_returns_envelope].
  - apply if_returns_envelope;
      [apply mret_envelope | apply read_url_content_returns_envelope].
Qed.

End Totality.

(** X19: each of the five tools returns exactly
    [{"content": [{"type": "text", "text": <str>}]}], whatever the
    upstream answers or the transport raises, on every call whose
    arguments lines 260 to 262 can print; nothing is raised. *)
Theorem every_tool_returns_the_envelope (w : World) (c : tool_call)
    (tr : list event) :
  well_behaved w ->
  debug_returns w c ->
  exists (text : str) (tr' : list event),
    run_tool w c tr = (Return (envelope text), tr').
Proof. intros Hw Hd. now apply run_tool_returns_envelope. Qed.

Lemma every_tool_returns_the_envelope_witness :
  exists (text : str) (tr' : list event),
    run_tool
      (mock (Some (lit "c00kie"))
            (Raise (mkExn ClientError (lit "Cannot connect to host")))
            (Raise (mkExn JSONDecodeError (lit "Expecting value")))
            (Raise (mkExn OtherException (lit "parser error"))))
      (CallSearchRunbook (lit "etcd") 0 30) []
    = (Return (envelope text), tr').
Proof.
  apply every_tool_returns_the_envelope.
  - constructor; intros; try reflexivity.
    unfold mock. cbn [json_dumps].
    destruct (has_big_int _); [reflexivity | exact I].
  - vm_compute. reflexivity.
Defined.

(** What lines 260 to 262 raise leaves [search] as it is, before any
    request. *)
Lemma search_raises_before_its_try (w : World) (term : str)
    (start_index size : Z) (type_filter : str)
    (breadcrumb_filter : list pyval) (e : exn) (tr : list event) :
  AuthManager.is_authenticated w = true \/ type_filter <> lit "Intranet" ->
  debug_search_parameters w breadcrumb_filter
    (build_payload term start_index size type_filter breadcrumb_filter)
  = Raise e ->
  search w term start_index size type_filter breadcrumb_filter tr
  = (Raise e, tr).
Proof.
  intros Hg Hd. unfold search.
  assert (G : negb (AuthManager.is_authenticated w)
              && str_eqb type_filter (lit "Intranet") = false).
  { destruct Hg as [-> | H]; [reflexivity|].
    apply str_eqb_neq in H. rewrite H. apply andb_false_r. }
  rewrite G. cbv zeta. rewrite Hd. reflexivity.
Qed.

(** C1, at a [size] of 4301 digits: [json.dumps] of the payload, in
    the debug line 262 that precedes the first [try], raises
    [ValueError]; [search] returns no envelope, the exception leaves the
    tool, and no request was issued. *)
Theorem oversized_size_escapes_search :
  search (mock None
               (Return (mkResponse 200 (Some (lit "OK")) None (lit "{}")))
               (Return (PDict [])) (Return []))
         (lit "cilium") 0 Py.str_limit [] [] []
  = (Raise (mkExn ValueError Py.msg_str_limit), []).
Proof.
  apply search_raises_before_its_try; [right; discriminate|].
  vm_compute. reflexivity.
Qed.

(** C3: [search] with the type filter ["Intranet"] and no credential
    returns the validation message and issues no request: the events
    after the call are the events before it. *)
Theorem intranet_filter_needs_credential (w : World) (term : str)
    (start_index size : Z) (breadcrumb_filter : list pyval)
    (tr : list event) :
  AuthManager.is_authenticated w = false ->
  search w term start_index size (lit "Intranet") breadcrumb_filter tr
  = (Return (envelope msg_intranet_filter), tr).
Proof.
  intros H. unfold search. rewrite H. reflexivity.
Qed.

Lemma intranet_filter_needs_credential_witness :
  search (mock None
               (Return (mkResponse 200 (Some (lit "OK")) None (lit "{}")))
               (Return (PDict [])) (Return []))
         (lit "onboarding") 0 30 (lit "Intranet") [] []
  = (Return (envelope msg_intranet_filter), []).
Proof.
  apply intranet_filter_needs_credential. reflexivity.
Defined.

(** ** The paths of [search] *)

Lemma session_get_run w rq tr :
  session_get w rq tr = (http_get w rq, tr ++ [HttpGet rq]).
Proof. reflexivity. Qed.

Lemma session_post_run w rq tr :
  session_post w rq tr = (http_post w rq, tr ++ [HttpPost rq]).
Proof. reflexivity. Qed.

Lemma loads_run w s tr :
  loads w s tr = (json_loads w s, tr ++ [JsonLoads s]).
Proof. reflexivity. Qed.

Section SearchPaths.

Variables (w : World) (term : str) (start_index size : Z)
          (type_filter : str) (breadcrumb_filter : list pyval).

Let payload :=
  build_payload term start_index size type_filter breadcrumb_filter.

Hypothesis Hguard :
  AuthManager.is_authenticated w = true \/ type_filter <> lit "Intranet".

Lemma guard_passes :
  negb (AuthManager.is_authenticated w)
  && str_eqb type_filter (lit "Intranet") = false.
Proof.
  destruct Hguard as [-> | H]; [reflexivity|].
  apply str_eqb_neq in H. rewrite H. apply andb_false_r.
Qed.

Hypothesis Hdebug :
  debug_search_parameters w breadcrumb_filter payload = Return tt.

Variable resp : response.
Hypothesis Hpost : http_post w (search_request w payload) = Return resp.

(** The body did not parse: lines 295 to 300. *)
Lemma search_on_invalid_json (tr : list event) (e : exn) :
  json_loads w (text resp) = Raise e ->
  is_JSONDecodeError e = true ->
  search w term start_index size type_filter breadcrumb_filter tr
  = (Return
       (envelope
          (lit "❌ Invalid JSON response from server." ++ nl ++ nl
           ++ lit "Response status: " ++ dec (status resp) ++ nl
           ++ lit "Response preview: " ++ firstn 200 (text resp))),
     tr ++ search_events w payload resp).
Proof.
  intros Hj He. unfold search. rewrite guard_passes. cbv zeta.
  fold payload. rewrite Hdebug.
  change (mbind (lift (Return tt)) ?k) with (k tt). cbv beta.
  unfold try_except, try_except_else, mbind.
  rewrite session_post_run, Hpost, loads_run, Hj, He.
  unfold mret, search_events. now rewrite <- app_assoc.
Qed.

(** The body parsed and passed the checks: lines 336 to 393. *)
Lemma search_on_success (tr : list event) (response_json : pyval) :
  classified_success w resp response_json ->
  search w term start_index size type_filter breadcrumb_filter tr
  = (match
       render_report w (AuthManager.is_authenticated w) term start_index
                     response_json
     with
     | Return body => Return (envelope body)
     | Raise e =>
       if is_KeyError e
       then Return (envelope
                      (lit "❌ Unexpected response format. Missing key: "
                       ++ exn_msg e))
       else Return (envelope
                      (lit "Error accessing "
                       ++ search_url (AuthManager.is_authenticated w)
                       ++ lit ": " ++ exn_msg e))
     end,
     tr ++ search_events w payload resp).
Proof.
  intros [Hj Hprinted Hm Hh Hs]. unfold search. rewrite guard_passes.
  cbv zeta. fold payload. rewrite Hdebug.
  change (mbind (lift (Return tt)) ?k) with (k tt). cbv beta.
  unfold try_except, try_except_else, mbind.
  rewrite session_post_run, Hpost, loads_run, Hj. unfold lift at 1.
  rewrite Hprinted, Hm, Hh, Hs.
  cbn [orb Z.eqb Pos.eqb negb]. unfold lift.
  unfold mret, search_events. rewrite <- app_assoc. cbn [app].
  pose proof (render_report_safe w (AuthManager.is_authenticated w) term
                start_index response_json) as Hsafe.
  destruct (render_report _ _ _ _ _) as [body|e]; [reflexivity|].
  destruct (is_KeyError e); [reflexivity|].
  simpl in Hsafe. now rewrite Hsafe.
Qed.

End SearchPaths.

(** Past the guard and the debug lines, into the first [try]. *)
Ltac enter_search Hg Hd :=
  unfold search; rewrite (guard_passes _ _ Hg); cbv zeta;
  rewrite Hd; change (mbind (lift (Return tt)) ?k) with (k tt); cbv beta.

(** ** The paths of a page read *)

Section ReadPaths.

Variables (w : World) (url url_description : str) (resp : response).

Hypothesis Hget : http_get w (read_request w url) = Return resp.

(** Lines 83 to 87: the sign-in page is recognised before anything
    else is done with the body. *)
Lemma read_url_on_login_page (tr : list event) :
  contains marker (text resp) = true ->
  _read_url_content w url url_description tr
  = (Return (envelope msg_auth_failed), tr ++ [HttpGet (read_request w url)]).
Proof.
  intros Hm. unfold _read_url_content, try_except, try_except_else, mbind.
  cbv zeta. now rewrite session_get_run, Hget, Hm.
Qed.

(** Lines 101 to 162 on an HTML page. *)
Lemma read_url_on_html (tr : list event) :
  fetched_html resp ->
  _read_url_content w url url_description tr
  = (match html_to_markdown w (text resp) with
     | Return markdown_content =>
       Return (envelope (content_header url
                         ++ clean_markdown markdown_content))
     | Raise e =>
       if is_Exception e
       then Return (envelope (content_header url ++ text resp))
       else Raise e
     end,
     tr ++ [HttpGet (read_request w url)]).
Proof.
  intros [Hm Hs Hh].
  unfold _read_url_content, try_except, try_except_else, mbind.
  cbv zeta. rewrite session_get_run, Hget, Hm, Hs, Hh.
  cbn [orb Z.eqb Pos.eqb negb]. unfold lift, mret.
  destruct (html_to_markdown w (text resp)) as [md|e]; [reflexivity|].
  destruct (is_Exception e) eqn:E; cbv beta iota; [reflexivity|].
  now rewrite E.
Qed.

End ReadPaths.

(** C8: when the conversion of a fetched HTML page raises, the page
    read returns the raw body under the ["# Content from <url>"]
    header, in the envelope. *)
Theorem conversion_failure_falls_back_to_raw (w : World)
    (url url_description : str) (resp : response) (e : exn)
    (tr : list event) :
  http_get w (read_request w url) = Return resp ->
  fetched_html resp ->
  html_to_markdown w (text resp) = Raise e ->
  is_Exception e = true ->
  _read_url_content w url url_description tr
  = (Return (envelope (lit "# Content from " ++ url ++ nl ++ nl ++ text resp)),
     tr ++ [HttpGet (read_request w url)]).
Proof.
  intros Hget Hok Hmd He.
  rewrite (@read_url_on_html w url url_description resp Hget tr Hok), Hmd, He.
  unfold content_header. now rewrite <- !app_assoc.
Qed.

Lemma conversion_failure_falls_back_to_raw_witness :
  _read_url_content
    (mock None
          (Return (mkResponse 200 (Some (lit "OK")) (Some (lit "text/HTML"))
                              (lit "<p>unclosed <b>markup")))
          (Return PNone)
          (Raise (mkExn OtherException (lit "maximum recursion depth exceeded"))))
    (lit "https://handbook.giantswarm.io/docs/") (lit "Handbook") []
  = (Return (envelope (lit "# Content from "
                       ++ lit "https://handbook.giantswarm.io/docs/"
                       ++ nl ++ nl ++ lit "<p>unclosed <b>markup")),
     [] ++ [HttpGet (mkRequest (lit "https://handbook.giantswarm.io/docs/")
                               None None None)]).
Proof.
  apply (@conversion_failure_falls_back_to_raw
           (mock None
              (Return (mkResponse 200 (Some (lit "OK")) (Some (lit "text/HTML"))
                                  (lit "<p>unclosed <b>markup")))
              (Return PNone)
              (Raise (mkExn OtherException
                            (lit "maximum recursion depth exceeded"))))
           (lit "https://handbook.giantswarm.io/docs/") (lit "Handbook")
           (mkResponse 200 (Some (lit "OK")) (Some (lit "text/HTML"))
                       (lit "<p>unclosed <b>markup"))
           (mkExn OtherException (lit "maximum recursion depth exceeded")) []).
  - reflexivity.
  - constructor; reflexivity.
  - reflexivity.
  - reflexivity.
Defined.

(** C2, at a sign-in page served to [search]: the body holds the
    marker, and [search] hands it to [json.loads], answers "Invalid
    JSON response" and quotes the page in the preview. *)
Theorem search_reports_login_page_as_invalid_json :
  contains marker login_page = true
  /\ search login_world (lit "cilium") 0 30 [] [] []
     = (Return
          (envelope
             (lit "❌ Invalid JSON response from server." ++ nl ++ nl
              ++ lit "Response status: 200" ++ nl
              ++ lit "Response preview: " ++ login_page)),
        [HttpPost (search_request login_world
                     (build_payload (lit "cilium") 0 30 [] []));
         JsonLoads login_page]).
Proof. split; vm_compute; reflexivity. Qed.

(** The page reads do recognise the same page. *)
Example read_recognises_login_page :
  read_handbook_url login_world (lit "https://handbook.giantswarm.io/x") []
  = (Return (envelope msg_auth_failed),
     [HttpGet (mkRequest (lit "https://handbook.giantswarm.io/x")
                         None None None)]).
Proof. vm_compute; reflexivity. Qed.

(** ** Rendering *)

Lemma int_str_returns z s : Py.int_str z = Return s -> s = dec z.
Proof.
  unfold Py.int_str. destruct (_ <=? _)%Z; [discriminate|]. now intros [= <-].
Qed.

Lemma int_str_printable z :
  (Z.abs z < Py.str_limit)%Z -> Py.int_str z = Return (dec z).
Proof.
  intros H. unfold Py.int_str.
  destruct (Z.leb_spec Py.str_limit (Z.abs z)); [lia | reflexivity].
Qed.

Lemma str_limit_pos : (0 < Py.str_limit)%Z.
Proof. unfold Py.str_limit, Py.int_max_str_digits. now apply Z.pow_pos_nonneg. Qed.

Ltac bind_returns H :=
  repeat match type of H with
         | obind ?m _ = Return _ =>
           let E := fresh "E" in
           destruct m eqn:E; cbn [obind] in H; [|discriminate H]
         end.

Lemma render_hit_shape w body n hit b :
  render_hit w body n hit = Return b ->
  exists rest, b = body ++ dec n ++ lit ". **[" ++ rest.
Proof.
  unfold render_hit. intros H. cbv zeta in H. bind_returns H.
  injection H as <-.
  match goal with
  | Hn : Py.int_str n = Return _ |- _ => apply int_str_returns in Hn; subst
  end.
  destruct (Py.ne_empty_str _), (Py.truthy _);
    eexists; rewrite <- !app_assoc; reflexivity.
Qed.

Lemma render_hits_shape w items :
  forall body n b,
    render_hits w items body n = Return b ->
    exists entries,
      b = body ++ concat entries
      /\ length entries = length items
      /\ forall i, (i < length entries)%nat ->
           exists rest,
             nth i entries [] = dec (n + Z.of_nat i) ++ lit ". **[" ++ rest.
Proof.
  induction items as [|hit items IH]; intros body n b H.
  - injection H as <-. exists []. cbn [concat length].
    rewrite app_nil_r. repeat split. intros i Hi. inversion Hi.
  - cbn [render_hits] in H. bind_returns H.
    destruct (@render_hit_shape _ _ _ _ _ E) as [rest ->].
    destruct (IH _ _ _ H) as (entries & -> & Hlen & Hnth).
    exists ((dec n ++ lit ". **[" ++ rest) :: entries).
    cbn [concat length]. rewrite <- !app_assoc. repeat split.
    + now rewrite Hlen.
    + intros [|i] Hi.
      * exists rest. now rewrite Z.add_0_r.
      * destruct (Hnth i ltac:(cbn [length] in Hi; lia)) as [r Hr].
        exists r. cbn [nth]. rewrite Hr. f_equal. f_equal. lia.
Qed.

Lemma len_iter v n items :
  Py.len v = Return n -> Py.iter v = Return items ->
  n = Z.of_nat (length items).
Proof.
  destruct v; try discriminate; cbn [Py.len Py.iter];
    intros [= <-] [= <-]; now rewrite ?length_map.
Qed.

Lemma offset_returns start_index s :
  (if (start_index >? 0)%Z
   then let? number := Py.int_str (start_index + 1) in
        Return (lit ", starting at " ++ number)
   else Return [])
  = Return s ->
  s = if (start_index >? 0)%Z
      then lit ", starting at " ++ dec (start_index + 1) else [].
Proof.
  destruct (start_index >? 0)%Z; [|now intros [= <-]].
  intros H. bind_returns H. injection H as <-.
  match goal with
  | Hn : Py.int_str _ = Return _ |- _ => apply int_str_returns in Hn; now subst
  end.
Qed.

Lemma render_report_shape w is_authenticated term start_index response_json
    body :
  render_report w is_authenticated term start_index response_json
  = Return body ->
  exists (total : pyval) (items : list pyval) (entries : list str),
    body
    = report_head is_authenticated term
      ++ lit "Showing " ++ dec (Z.of_nat (length items)) ++ lit " out of "
      ++ fmt w total ++ lit " search results"
      ++ (if (start_index >? 0)%Z
          then lit ", starting at " ++ dec (start_index + 1) else [])
      ++ nl ++ nl ++ concat entries
    /\ length entries = length items
    /\ forall i, (i < length entries)%nat ->
         exists rest,
           nth i entries []
           = dec (start_index + 1 + Z.of_nat i) ++ lit ". **[" ++ rest.
Proof.
  unfold render_report. intros H. cbv zeta in H. bind_returns H.
  match goal with
  | Hl : Py.len _ = Return _, Hi : Py.iter _ = Return _ |- _ =>
    rewrite (@len_iter _ _ _ Hl Hi) in H
  end.
  match goal with
  | Ho : (if (start_index >? 0)%Z then _ else _) = Return _ |- _ =>
    apply offset_returns in Ho; subst
  end.
  destruct (@render_hits_shape _ _ _ _ _ H) as (entries & -> & Hlen & Hnth).
  match goal with
  | Ht : Py.get _ (lit "total") _ = Return ?t,
    Hi : Py.iter _ = Return ?l |- _ => exists t, l, entries
  end.
  split; [|split; assumption].
  unfold report_head.
  destruct is_authenticated, (start_index >? 0)%Z; cbn [negb];
    rewrite <- ?app_assoc, ?app_nil_r; reflexivity.
Qed.

Lemma get_str_field source k dflt (o : option str) :
  Py.lookup k source = option_map PStr o ->
  Py.get (PDict source) k (PStr dflt) = Return (PStr (opt_default dflt o)).
Proof. intros H. cbn [Py.get]. rewrite H. now destruct o. Qed.

Lemma get_list_field source k (o : option (list str)) :
  Py.lookup k source = option_map (fun b => PList (map PStr b)) o ->
  Py.get (PDict source) k (PList [])
  = Return (PList (map PStr (opt_default [] o))).
Proof. intros H. cbn [Py.get]. rewrite H. now destruct o. Qed.

Lemma join_items_strs (ss : list str) :
  forall i, Py.join_items i (map PStr ss) = Return ss.
Proof.
  induction ss as [|s ss IH]; intros i; [reflexivity|].
  cbn [map Py.join_items]. now rewrite IH.
Qed.

Lemma join_strs sep (ss : list str) :
  Py.join sep (PList (map PStr ss)) = Return (join sep ss).
Proof.
  unfold Py.join. cbn [Py.iter obind]. now rewrite join_items_strs.
Qed.

(** The source of a hit record, whether the hit has one or not. *)
Lemma hit_record_source h f :
  hit_record (PDict h) f ->
  exists source,
    Py.get (PDict h) (lit "_source") (PDict []) = Return (PDict source)
    /\ source_is source f.
Proof.
  intros [Hs _]. cbn [Py.get].
  destruct (Py.lookup (lit "_source") h) as [[| | | | | |source]|];
    try contradiction; eauto.
Qed.

(** The excerpt of a hit record, [''] when there is none. *)
Lemma hit_record_excerpt h f :
  hit_record (PDict h) f ->
  exists highlight fragments,
    Py.get (PDict h) (lit "highlight") (PDict []) = Return highlight
    /\ Py.get highlight (lit "body") (PList [PStr []]) = Return fragments
    /\ Py.item0 fragments = Return (PStr (opt_default [] (hf_excerpt f))).
Proof.
  intros [_ He]. unfold excerpt_is in He. cbn [Py.get].
  destruct (Py.lookup (lit "highlight") h) as [[| | | | | |highlight]|];
    try contradiction.
  - exists (PDict highlight). cbn [Py.get].
    destruct (Py.lookup (lit "body") highlight)
      as [[| | | | |[|[| | | |e| |] more]|]|]; try contradiction;
      rewrite He; eexists; repeat split; reflexivity.
  - rewrite He. exists (PDict []), (PList [PStr []]). repeat split.
Qed.

Lemma render_hit_record w body n hit f :
  hit_record hit f ->
  (Z.abs n < Py.str_limit)%Z ->
  render_hit w body n hit = Return (body ++ rendered_entry n f).
Proof.
  intros H Hn. destruct hit as [| | | | | |h]; try contradiction.
  destruct (@hit_record_source _ _ H) as (source & Hsrc & Ht & Hu & Hty & Hb & Hd).
  destruct (@hit_record_excerpt _ _ H) as (highlight & fragments & Hh & Hf & He).
  unfold render_hit. cbv zeta.
  rewrite Hsrc. cbn [obind].
  rewrite (@get_str_field _ _ _ _ Ht), (@get_str_field _ _ _ _ Hd),
    (@get_str_field _ _ _ _ Hu), (@get_str_field _ _ _ _ Hty),
    (@get_list_field _ _ _ Hb), (@int_str_printable n Hn).
  cbn [obind]. rewrite join_strs. cbn [obind].
  rewrite Hh. cbn [obind]. rewrite Hf. cbn [obind]. rewrite He. cbn [obind].
  unfold rendered_entry, fmt. cbn [Py.to_str].
  f_equal.
  destruct (hf_description f) as [[|c d]|], (hf_excerpt f) as [[|c' e]|];
    cbn [opt_default Py.ne_empty_str Py.truthy];
    rewrite <- ?app_assoc, ?app_nil_r; cbn [app]; reflexivity.
Qed.

Lemma render_hits_records w hits fs :
  Forall2 hit_record hits fs ->
  forall body n,
    (- Py.str_limit < n)%Z ->
    (n + Z.of_nat (length hits) <= Py.str_limit)%Z ->
    render_hits w hits body n
    = Return (body ++ concat (numbered_entries n fs)).
Proof.
  induction 1 as [|hit f hits fs Hf _ IH]; intros body n Hlo Hhi.
  - cbn [render_hits numbered_entries concat]. now rewrite app_nil_r.
  - cbn [render_hits numbered_entries concat]. cbn [length] in Hhi.
    rewrite (@render_hit_record w body n _ _ Hf) by lia. cbn [obind].
    rewrite IH by lia. now rewrite <- app_assoc.
Qed.

Lemma debug_log_records hits fs :
  Forall2 hit_record hits fs ->
  forall k, debug_log_hits (firstn k hits) = Return tt.
Proof.
  induction 1 as [|hit f hits fs Hf _ IH]; intros [|k]; try reflexivity.
  cbn [firstn debug_log_hits].
  destruct hit as [| | | | | |h]; try contradiction.
  destruct (@hit_record_source _ _ Hf) as (source & -> & _).
  cbn [obind Py.get]. apply IH.
Qed.

Lemma offset_printable start_index :
  (start_index + 1 < Py.str_limit)%Z ->
  (if (start_index >? 0)%Z
   then let? number := Py.int_str (start_index + 1) in
        Return (lit ", starting at " ++ number)
   else Return [])
  = Return (if (start_index >? 0)%Z
            then lit ", starting at " ++ dec (start_index + 1) else []).
Proof.
  intros H. destruct (Z.gtb_spec start_index 0); [|reflexivity].
  rewrite int_str_printable by lia. reflexivity.
Qed.

(** The report for an object body whose [hits] is missing or an
    object, whose [hits.hits] is missing or a list of hit records and
    whose [hits.total] may be missing. *)
Lemma render_report_records w is_authenticated term start_index d top hits fs :
  opt_default (PDict []) (Py.lookup (lit "hits") d) = PDict top ->
  opt_default (PList []) (Py.lookup (lit "hits") top) = PList hits ->
  Forall2 hit_record hits fs ->
  numbers_printable start_index (length hits) ->
  render_report w is_authenticated term start_index (PDict d)
  = Return
      (report_head is_authenticated term
       ++ lit "Showing " ++ dec (Z.of_nat (length hits)) ++ lit " out of "
       ++ fmt w (opt_default (PInt 0) (Py.lookup (lit "total") top))
       ++ lit " search results"
       ++ (if (start_index >? 0)%Z
           then lit ", starting at " ++ dec (start_index + 1) else [])
       ++ nl ++ nl ++ concat (numbered_entries (start_index + 1) fs)).
Proof.
  intros Htop Hhits Hfs [Hlo Hhi]. unfold render_report. cbv zeta.
  unfold Py.get at 1. fold (opt_default (PDict []) (Py.lookup (lit "hits") d)).
  rewrite Htop. cbn [obind].
  unfold Py.get at 1.
  fold (opt_default (PList []) (Py.lookup (lit "hits") top)).
  rewrite Hhits. cbn [obind Py.get Py.len Py.iter].
  replace (if Py.truthy (PList hits) then _ else _) with (Return tt).
  2:{ destruct hits as [|hit hits]; [reflexivity|].
      cbn [Py.truthy Py.slice3 obind Py.iter].
      symmetry. apply (@debug_log_records _ _ Hfs). }
  cbn [obind]. rewrite offset_printable by lia. cbn [obind].
  rewrite (@render_hits_records w _ _ Hfs) by lia. f_equal.
  unfold report_head, opt_default.
  destruct is_authenticated, (start_index >? 0)%Z; cbn [negb];
    rewrite <- ?app_assoc, ?app_nil_r; reflexivity.
Qed.

(** ** Examples of [search] *)

Example dumps_two_hits_prefix :
  firstn 32 (dumps two_hits)
  = lit "{" ++ quote_char ++ lit "took" ++ quote_char ++ lit ": 3, "
    ++ quote_char ++ lit "hits" ++ quote_char ++ lit ": {" ++ quote_char
    ++ lit "total" ++ quote_char ++ lit ": 57".
Proof. vm_compute. reflexivity. Qed.

Example search_two_hits_page1 :
  search (answering None two_hits) (lit "A") 0 30 [] [] []
  = (Return (envelope two_hits_page1),
     search_events (answering None two_hits)
                   (build_payload (lit "A") 0 30 [] [])
                   (json_response two_hits)).
Proof. vm_compute. reflexivity. Qed.

Example search_two_hits_page2 :
  search (answering (Some (lit "c00kie")) two_hits) (lit "A") 30 30 [] [] []
  = (Return (envelope two_hits_page2),
     search_events (answering (Some (lit "c00kie")) two_hits)
                   (build_payload (lit "A") 30 30 [] [])
                   (json_response two_hits)).
Proof. vm_compute. reflexivity. Qed.

Example search_request_carries_cookie :
  search_request (answering (Some (lit "c00kie")) two_hits) PNone
  = mkRequest (lit "https://intranet.giantswarm.io/searchapi/") None
              (Some (PDict [(lit "_oauth2_proxy", PStr (lit "c00kie"))]))
              (Some PNone).
Proof. vm_compute. reflexivity. Qed.

Example runbook_query_clauses :
  positional_matches
    (and_clauses
       (build_query (lit "etcd") []
          [PStr (lit "support-and-ops"); PStr (lit "runbooks")]))
  = [(lit "breadcrumb_1", PStr (lit "support-and-ops"));
     (lit "breadcrumb_2", PStr (lit "runbooks"))].
Proof. vm_compute. reflexivity. Qed.

Lemma search_success (w : World) (term : str) (start_index size : Z)
    (type_filter : str) (breadcrumb_filter : list pyval) (resp : response)
    (response_json : pyval) (body : str) (tr : list event) :
  success_response w term start_index size type_filter breadcrumb_filter
                   resp response_json ->
  render_report w (AuthManager.is_authenticated w) term start_index
                response_json = Return body ->
  search w term start_index size type_filter breadcrumb_filter tr
  = (Return (envelope body),
     tr ++ search_events w
             (build_payload term start_index size type_filter
                            breadcrumb_filter) resp).
Proof.
  intros [Hg Hd Hp Hc] Hr.
  now rewrite (@search_on_success w term start_index size type_filter
                 breadcrumb_filter Hg Hd resp Hp tr response_json Hc), Hr.
Qed.

Lemma answering_success cookie body term start_index size type_filter
    breadcrumb_filter :
  AuthManager.env_truthy cookie = true \/ type_filter <> lit "Intranet" ->
  debug_search_parameters (answering cookie body) breadcrumb_filter
    (build_payload term start_index size type_filter breadcrumb_filter)
  = Return tt ->
  debug_parsed_json (answering cookie body) body = Return tt ->
  contains marker (dumps body) = false ->
  startswith (lit "<") (strip (dumps body)) = false ->
  success_response (answering cookie body) term start_index size type_filter
                   breadcrumb_filter (json_response body) body.
Proof.
  intros Hg Hd Hj Hm Hh. constructor; [exact Hg | exact Hd | reflexivity|].
  constructor; [reflexivity | exact Hj | exact Hm | exact Hh | reflexivity].
Qed.

(** C7: in the report of a successful search the summary line ends
    with [", starting at <start_index + 1>"] when [start_index > 0] and
    has no such phrase otherwise (so not for [start_index = 0]), and
    the entries are numbered [start_index + 1], [start_index + 2], ...
    in order. *)
Theorem pagination_offset_and_numbering (w : World) (term : str)
    (start_index size : Z) (type_filter : str)
    (breadcrumb_filter : list pyval) (resp : response)
    (response_json : pyval) (body : str) (tr : list event) :
  success_response w term start_index size type_filter breadcrumb_filter
                   resp response_json ->
  render_report w (AuthManager.is_authenticated w) term start_index
                response_json = Return body ->
  search w term start_index size type_filter breadcrumb_filter tr
  = (Return (envelope body),
     tr ++ search_events w
             (build_payload term start_index size type_filter
                            breadcrumb_filter) resp)
  /\ exists (total : pyval) (items : list pyval) (entries : list str),
       body
       = report_head (AuthManager.is_authenticated w) term
         ++ lit "Showing " ++ dec (Z.of_nat (length items)) ++ lit " out of "
         ++ fmt w total ++ lit " search results"
         ++ (if (start_index >? 0)%Z
             then lit ", starting at " ++ dec (start_index + 1) else [])
         ++ nl ++ nl ++ concat entries
       /\ length entries = length items
       /\ forall i, (i < length entries)%nat ->
            exists rest,
              nth i entries []
              = dec (start_index + 1 + Z.of_nat i) ++ lit ". **[" ++ rest.
Proof.
  intros Hs Hr. split.
  - now apply search_success with (response_json := response_json).
  - now apply render_report_shape with (response_json := response_json).
Qed.

Lemma pagination_offset_and_numbering_witness :
  search (answering (Some (lit "c00kie")) two_hits) (lit "A") 30 30 [] [] []
  = (Return (envelope two_hits_page2),
     [] ++ search_events (answering (Some (lit "c00kie")) two_hits)
             (build_payload (lit "A") 30 30 [] []) (json_response two_hits))
  /\ exists (total : pyval) (items : list pyval) (entries : list str),
       two_hits_page2
       = report_head true (lit "A")
         ++ lit "Showing " ++ dec (Z.of_nat (length items)) ++ lit " out of "
         ++ fmt (answering (Some (lit "c00kie")) two_hits) total
         ++ lit " search results"
         ++ (if (30 >? 0)%Z then lit ", starting at " ++ dec (30 + 1) else [])
         ++ nl ++ nl ++ concat entries
       /\ length entries = length items
       /\ forall i, (i < length entries)%nat ->
            exists rest,
              nth i entries []
              = dec (30 + 1 + Z.of_nat i) ++ lit ". **[" ++ rest.
Proof.
  apply (@pagination_offset_and_numbering
           (answering (Some (lit "c00kie")) two_hits) (lit "A") 30 30 [] []
           (json_response two_hits) two_hits two_hits_page2 []).
  - apply answering_success;
      [left; reflexivity | vm_compute; reflexivity..].
  - vm_compute. reflexivity.
Defined.

(** C10 as stated fails: rendering is not total over arbitrary hit
    records.  For a success-classified answer whose second hit has the
    empty list as [highlight.body], the rendering block raises
    [IndexError] and [search] answers "Error accessing ...", not a
    report. *)
Lemma empty_fragment_list_is_not_rendered_counterexample :
  success_response (answering None (PDict empty_highlight_body)) (lit "A")
                   0 30 [] [] (json_response (PDict empty_highlight_body))
                   (PDict empty_highlight_body)
  /\ render_report (answering None (PDict empty_highlight_body)) false
                   (lit "A") 0 (PDict empty_highlight_body)
     = Raise (mkExn IndexError (lit "list index out of range"))
  /\ search (answering None (PDict empty_highlight_body)) (lit "A") 0 30
            [] [] []
     = (Return
          (envelope
             (lit "Error accessing https://docs.giantswarm.io/searchapi/: list index out of range")),
        search_events (answering None (PDict empty_highlight_body))
                      (build_payload (lit "A") 0 30 [] [])
                      (json_response (PDict empty_highlight_body))).
Proof.
  split; [|split]; [|vm_compute; reflexivity..].
  apply answering_success;
    [right; discriminate | vm_compute; reflexivity..].
Qed.

(** C10, amended: a success-classified answer whose hits are records
    in which every field is missing or of the engine's type (title,
    url, type and description a string, breadcrumb a list of strings,
    [highlight.body] a list that starts with a string), with entry numbers
    within the digit limit, is rendered in full: a missing title is
    empty, a missing url is ["No URL"], a missing type is ["Unknown"], a
    missing breadcrumb is the empty path, and the description and
    excerpt lines appear for non-empty values only ([rendered_entry]);
    nothing is raised. *)
Theorem missing_hit_fields_render_defaults (w : World) (term : str)
    (start_index size : Z) (type_filter : str)
    (breadcrumb_filter : list pyval) (resp : response)
    (d top : list (str * pyval)) (hits : list pyval) (fs : list hit_fields)
    (tr : list event) :
  success_response w term start_index size type_filter breadcrumb_filter
                   resp (PDict d) ->
  Py.lookup (lit "hits") d = Some (PDict top) ->
  Py.lookup (lit "hits") top = Some (PList hits) ->
  Forall2 hit_record hits fs ->
  numbers_printable start_index (length hits) ->
  search w term start_index size type_filter breadcrumb_filter tr
  = (Return
       (envelope
          (report_head (AuthManager.is_authenticated w) term
           ++ lit "Showing " ++ dec (Z.of_nat (length hits)) ++ lit " out of "
           ++ fmt w (opt_default (PInt 0) (Py.lookup (lit "total") top))
           ++ lit " search results"
           ++ (if (start_index >? 0)%Z
               then lit ", starting at " ++ dec (start_index + 1) else [])
           ++ nl ++ nl ++ concat (numbered_entries (start_index + 1) fs))),
     tr ++ search_events w
             (build_payload term start_index size type_filter
                            breadcrumb_filter) resp).
Proof.
  intros Hs Hd Ht Hfs Hn.
  apply search_success with (response_json := PDict d); [exact Hs|].
  apply render_report_records with (top := top) (hits := hits);
    [now rewrite Hd | now rewrite Ht | exact Hfs | exact Hn].
Qed.

Lemma numbers_printable_small (start_index : Z) (count : nat) :
  (0 <=? start_index)%Z = true ->
  (start_index + 1 + Z.of_nat count <? Py.str_limit)%Z = true ->
  numbers_printable start_index count.
Proof.
  intros H1 H2. apply Z.leb_le in H1. apply Z.ltb_lt in H2.
  pose proof str_limit_pos. split; lia.
Qed.

Example rendered_entry_all_missing (n : Z) :
  rendered_entry n fields_bare
  = dec n ++ lit ". **[](No URL)**" ++ nl
    ++ lit "   **Type:** Unknown" ++ nl
    ++ lit "   **Breadcrumb:** " ++ nl ++ nl.
Proof. reflexivity. Qed.

Lemma hit_full_record : hit_record hit_full fields_full.
Proof. repeat split. Qed.

Lemma hit_bare_record : hit_record hit_bare fields_bare.
Proof. repeat split. Qed.

Lemma missing_hit_fields_render_defaults_witness :
  search (answering None two_hits) (lit "A") 0 30 [] [] []
  = (Return
       (envelope
          (report_head (AuthManager.is_authenticated (answering None two_hits))
                       (lit "A")
           ++ lit "Showing " ++ dec (Z.of_nat (length [hit_full; hit_bare]))
           ++ lit " out of "
           ++ fmt (answering None two_hits)
                  (opt_default (PInt 0)
                     (Py.lookup (lit "total")
                        [(lit "total", PInt 57);
                         (lit "hits", PList [hit_full; hit_bare])]))
           ++ lit " search results"
           ++ (if (0 >? 0)%Z then lit ", starting at " ++ dec (0 + 1) else [])
           ++ nl ++ nl
           ++ concat (numbered_entries (0 + 1) [fields_full; fields_bare]))),
     [] ++ search_events (answering None two_hits)
             (build_payload (lit "A") 0 30 [] []) (json_response two_hits)).
Proof.
  apply (@missing_hit_fields_render_defaults
           (answering None two_hits) (lit "A") 0 30 [] []
           (json_response two_hits)
           [(lit "took", PInt 3);
            (lit "hits",
             PDict [(lit "total", PInt 57);
                    (lit "hits", PList [hit_full; hit_bare])])]
           [(lit "total", PInt 57); (lit "hits", PList [hit_full; hit_bare])]
           [hit_full; hit_bare] [fields_full; fields_bare] []).
  - apply (@answering_success None two_hits);
      [right; discriminate | vm_compute; reflexivity..].
  - reflexivity.
  - reflexivity.
  - repeat constructor.
  - apply numbers_printable_small; vm_compute; reflexivity.
Defined.

(** C4 as stated fails: the body [{}] is classified a success and has
    neither [hits.hits] nor [hits.total], and [search] returns the
    report with no results, not an "Unexpected response format"
    message. *)
Lemma missing_keys_are_not_reported_counterexample :
  success_response (answering None (PDict [])) (lit "cilium") 0 30 [] []
                   (json_response (PDict [])) (PDict [])
  /\ Py.lookup (lit "hits") [] = None
  /\ search (answering None (PDict [])) (lit "cilium") 0 30 [] [] []
     = (Return (envelope (no_hits_report (lit "cilium"))),
        search_events (answering None (PDict []))
                      (build_payload (lit "cilium") 0 30 [] [])
                      (json_response (PDict [])))
  /\ ~ (exists (key : str) (tr' : list event),
          search (answering None (PDict [])) (lit "cilium") 0 30 [] [] []
          = (Return
               (envelope
                  (lit "❌ Unexpected response format. Missing key: " ++ key)),
             tr')).
Proof.
  assert (E : search (answering None (PDict [])) (lit "cilium") 0 30 [] [] []
              = (Return (envelope (no_hits_report (lit "cilium"))),
                 search_events (answering None (PDict []))
                               (build_payload (lit "cilium") 0 30 [] [])
                               (json_response (PDict []))))
    by (vm_compute; reflexivity).
  split; [|split; [reflexivity|split; [exact E|]]].
  - apply answering_success;
      [right; discriminate | vm_compute; reflexivity..].
  - intros (key & tr' & H). rewrite E in H.
    vm_compute in H. discriminate H.
Qed.

(** C4, amended: for a success-classified object body whose [hits] is
    missing or an object, and report numbers within the digit limit:
    when [hits.hits] is missing, [search] returns the report with no
    entries and the summary "Showing 0 out of" [hits.total], or 0 when
    that is missing too; when [hits.total] is missing and [hits.hits] is
    a list of well-formed hit records, it returns the report of those
    hits with "out of 0". *)
Theorem missing_hit_keys_take_defaults (w : World) (term : str)
    (start_index size : Z) (type_filter : str)
    (breadcrumb_filter : list pyval) (resp : response)
    (d top : list (str * pyval)) (tr : list event) :
  success_response w term start_index size type_filter breadcrumb_filter
                   resp (PDict d) ->
  opt_default (PDict []) (Py.lookup (lit "hits") d) = PDict top ->
  (Py.lookup (lit "hits") top = None ->
   numbers_printable start_index 0 ->
   search w term start_index size type_filter breadcrumb_filter tr
   = (Return
        (envelope
           (report_head (AuthManager.is_authenticated w) term
            ++ lit "Showing 0 out of "
            ++ fmt w (opt_default (PInt 0) (Py.lookup (lit "total") top))
            ++ lit " search results"
            ++ (if (start_index >? 0)%Z
                then lit ", starting at " ++ dec (start_index + 1) else [])
            ++ nl ++ nl)),
      tr ++ search_events w
              (build_payload term start_index size type_filter
                             breadcrumb_filter) resp))
  /\ (forall (hits : list pyval) (fs : list hit_fields),
        Py.lookup (lit "total") top = None ->
        Py.lookup (lit "hits") top = Some (PList hits) ->
        Forall2 hit_record hits fs ->
        numbers_printable start_index (length hits) ->
        search w term start_index size type_filter breadcrumb_filter tr
        = (Return
             (envelope
                (report_head (AuthManager.is_authenticated w) term
                 ++ lit "Showing " ++ dec (Z.of_nat (length hits))
                 ++ lit " out of 0 search results"
                 ++ (if (start_index >? 0)%Z
                     then lit ", starting at " ++ dec (start_index + 1)
                     else [])
                 ++ nl ++ nl
                 ++ concat (numbered_entries (start_index + 1) fs))),
           tr ++ search_events w
                   (build_payload term start_index size type_filter
                                  breadcrumb_filter) resp)).
Proof.
  intros Hs Htop. split.
  - intros Hh Hn.
    apply search_success with (response_json := PDict d); [exact Hs|].
    rewrite (@render_report_records w (AuthManager.is_authenticated w) term
               start_index d top [] [] Htop);
      [|now rewrite Hh | constructor | exact Hn].
    cbn [numbered_entries concat length Z.of_nat]. rewrite app_nil_r.
    reflexivity.
  - intros hits fs Ht Hh Hfs Hn.
    apply search_success with (response_json := PDict d); [exact Hs|].
    rewrite (@render_report_records w (AuthManager.is_authenticated w) term
               start_index d top hits fs Htop);
      [|now rewrite Hh | exact Hfs | exact Hn].
    rewrite Ht. reflexivity.
Qed.

Lemma missing_hit_keys_take_defaults_witness :
  search (answering None (PDict [])) (lit "cilium") 0 30 [] [] []
  = (Return
       (envelope
          (report_head (AuthManager.is_authenticated
                          (answering None (PDict []))) (lit "cilium")
           ++ lit "Showing 0 out of "
           ++ fmt (answering None (PDict []))
                  (opt_default (PInt 0) (Py.lookup (lit "total") []))
           ++ lit " search results"
           ++ (if (0 >? 0)%Z then lit ", starting at " ++ dec (0 + 1) else [])
           ++ nl ++ nl)),
     [] ++ search_events (answering None (PDict []))
             (build_payload (lit "cilium") 0 30 [] [])
             (json_response (PDict []))).
Proof.
  refine (proj1 (@missing_hit_keys_take_defaults
                   (answering None (PDict [])) (lit "cilium") 0 30 [] []
                   (json_response (PDict [])) [] [] [] _ _) _ _).
  - apply answering_success;
      [right; discriminate | vm_compute; reflexivity..].
  - reflexivity.
  - reflexivity.
  - apply numbers_printable_small; vm_compute; reflexivity.
Defined.

(** ** Blank lines *)

Lemma length_zero_is_empty (l : str) : (length l =? 0)%nat = is_empty l.
Proof. now destruct l. Qed.

Lemma clean_loop (lines : list str) :
  forall acc prev_empty,
    fst (fold_left clean_step lines (acc, prev_empty))
    = acc ++ kept_lines prev_empty (map rstrip lines).
Proof.
  induction lines as [|l lines IH]; intros acc prev.
  - cbn. now rewrite app_nil_r.
  - cbn [fold_left map kept_lines]. unfold clean_step at 2.
    rewrite length_zero_is_empty.
    destruct (is_empty (rstrip l) && prev); [apply IH|].
    rewrite IH, <- app_assoc. reflexivity.
Qed.

Lemma kept_lines_collapse (ls : list str) :
  kept_lines false ls = collapse_blank_runs ls
  /\ [] :: kept_lines true ls = collapse_blank_runs ([] :: ls).
Proof.
  induction ls as [|l ls [IHa IHb]]; [split; reflexivity|].
  destruct l as [|c l].
  - split.
    + cbn [kept_lines is_empty andb]. exact IHb.
    + cbn [kept_lines is_empty andb]. rewrite IHb. reflexivity.
  - split.
    + cbn [kept_lines is_empty andb]. rewrite IHa.
      destruct ls; reflexivity.
    + cbn [kept_lines is_empty andb]. rewrite IHa.
      cbn [collapse_blank_runs]. destruct ls; reflexivity.
Qed.

Lemma clean_markdown_lines (md : str) :
  clean_markdown md
  = strip (join nl (collapse_blank_runs (map rstrip (split_lines md)))).
Proof.
  unfold clean_markdown.
  pose proof (clean_loop (split_lines md) [] false) as H.
  destruct (fold_left clean_step (split_lines md) ([], false)) as [cl pe].
  cbn [fst app] in H. rewrite H.
  now rewrite (proj1 (kept_lines_collapse _)).
Qed.

Lemma rstrip_app_kept (a b : str) :
  rstrip b <> [] -> rstrip (a ++ b) = a ++ rstrip b.
Proof.
  intros Hb. induction a as [|c a IH]; [reflexivity|].
  simpl. rewrite IH.
  destruct (a ++ rstrip b) eqn:E; [|reflexivity].
  apply app_eq_nil in E. tauto.
Qed.

Lemma rstrip_app_dropped (a b : str) :
  rstrip b = [] -> rstrip (a ++ b) = rstrip a.
Proof.
  intros Hb. induction a as [|c a IH]; [exact Hb|].
  simpl. now rewrite IH.
Qed.

Lemma rstrip_idem (l : str) : rstrip (rstrip l) = rstrip l.
Proof.
  induction l as [|c l IH]; [reflexivity|].
  simpl. destruct (rstrip l) as [|c' r] eqn:E.
  - destruct (isspace c) eqn:S; [reflexivity|]. simpl. now rewrite S.
  - change (rstrip (c :: c' :: r)) with
      (match rstrip (c' :: r) with
       | [] => if isspace c then [] else [c]
       | x :: y => c :: x :: y
       end).
    now rewrite IH.
Qed.

Lemma lstrip_app_kept (l x : str) :
  rstrip l <> [] -> lstrip (l ++ x) = lstrip l ++ x.
Proof.
  induction l as [|c l IH]; [simpl; congruence|].
  intros H. simpl. destruct (isspace c) eqn:S; [|reflexivity].
  apply IH. intros E. apply H. simpl. now rewrite E, S.
Qed.

Lemma lstrip_kept_nonempty (l : str) : rstrip l <> [] -> lstrip l <> [].
Proof.
  induction l as [|c l IH]; [simpl; congruence|].
  intros H. simpl. destruct (isspace c) eqn:S; [|discriminate].
  apply IH. intros E. apply H. simpl. now rewrite E, S.
Qed.

Lemma join_cons (sep l : str) (rest : list str) :
  rest <> [] -> join sep (l :: rest) = l ++ sep ++ join sep rest.
Proof. destruct rest; [congruence | reflexivity]. Qed.

Lemma drop_trailing_blank_join (ls : list str) :
  drop_trailing_blank ls <> [] -> join nl (drop_trailing_blank ls) <> [].
Proof.
  induction ls as [|l ls IH]; [simpl; congruence|].
  cbn [drop_trailing_blank]. destruct (drop_trailing_blank ls) as [|l' r].
  - destruct l; cbn [is_empty]; [congruence | discriminate].
  - intros _. rewrite join_cons by discriminate.
    intros E. apply app_eq_nil in E. destruct E as [_ E]. discriminate E.
Qed.

Lemma rstrip_join (ls : list str) :
  Forall trimmed ls ->
  rstrip (join nl ls) = join nl (drop_trailing_blank ls).
Proof.
  induction 1 as [|l ls Hl Hls IH]; [reflexivity|].
  unfold trimmed in Hl.
  destruct ls as [|l2 ls].
  - simpl. rewrite Hl. now destruct l.
  - rewrite join_cons by discriminate.
    pose proof (drop_trailing_blank_join (l2 :: ls)) as Hne.
    remember (l2 :: ls) as rest eqn:Hrest.
    simpl drop_trailing_blank.
    destruct (drop_trailing_blank rest) as [|l' r].
    + simpl in IH.
      rewrite (rstrip_app_dropped l).
      * rewrite Hl. now destruct l.
      * now rewrite (rstrip_app_dropped nl).
    + rewrite join_cons by discriminate.
      rewrite (app_assoc l nl), rstrip_app_kept, <- app_assoc.
      * now rewrite IH.
      * rewrite IH. apply Hne. discriminate.
Qed.

Lemma lstrip_join (ls : list str) :
  Forall trimmed ls ->
  lstrip (join nl ls) = join nl (lstrip_head (drop_leading_blank ls)).
Proof.
  induction 1 as [|l ls Hl Hls IH]; [reflexivity|].
  destruct l as [|c l].
  - cbn [drop_leading_blank]. destruct ls as [|l2 ls]; [reflexivity|].
    rewrite join_cons by discriminate. exact IH.
  - cbn [drop_leading_blank lstrip_head].
    assert (Hne : rstrip (c :: l) <> []) by (rewrite Hl; discriminate).
    destruct ls as [|l2 ls]; [reflexivity|].
    rewrite !join_cons by discriminate.
    now apply lstrip_app_kept.
Qed.

Lemma collapse_Forall (P : str -> Prop) (ls : list str) :
  Forall P ls -> Forall P (collapse_blank_runs ls).
Proof.
  induction 1 as [|l ls Hl Hls IH]; [constructor|].
  cbn [collapse_blank_runs].
  destruct l; [destruct ls as [|[|] ?]|]; auto.
Qed.

Lemma drop_trailing_blank_Forall (P : str -> Prop) (ls : list str) :
  Forall P ls -> Forall P (drop_trailing_blank ls).
Proof.
  induction 1 as [|l ls Hl Hls IH]; [constructor|].
  cbn [drop_trailing_blank].
  destruct (drop_trailing_blank ls); [destruct (is_empty l)|]; auto.
Qed.

Lemma trimmed_lines (lines : list str) : Forall trimmed (map rstrip lines).
Proof.
  induction lines; constructor; [apply rstrip_idem | assumption].
Qed.

Lemma clean_markdown_normalized (md : str) :
  clean_markdown md = join nl (normalized_lines md).
Proof.
  rewrite clean_markdown_lines. unfold strip, normalized_lines.
  set (ls := collapse_blank_runs _).
  assert (Hls : Forall trimmed ls) by apply collapse_Forall, trimmed_lines.
  rewrite rstrip_join by exact Hls.
  apply lstrip_join, drop_trailing_blank_Forall, Hls.
Qed.

Lemma has_blank_run_cons (l : str) (rest : list str) :
  has_blank_run (l :: rest)
  = is_empty l && starts_blank rest || has_blank_run rest.
Proof. reflexivity. Qed.

Lemma collapse_starts (ls : list str) :
  starts_blank (collapse_blank_runs ls) = starts_blank ls.
Proof.
  induction ls as [|l ls IH]; [reflexivity|].
  destruct l as [|c l]; [|destruct ls; reflexivity].
  destruct ls as [|[|c l2] ls]; try reflexivity.
  change (collapse_blank_runs ([] :: [] :: ls))
    with (collapse_blank_runs ([] :: ls)).
  exact IH.
Qed.

Lemma collapse_no_run (ls : list str) :
  has_blank_run (collapse_blank_runs ls) = false.
Proof.
  induction ls as [|l ls IH]; [reflexivity|].
  destruct l as [|c l].
  - destruct ls as [|[|c l2] ls]; [reflexivity | exact IH |].
    change (collapse_blank_runs ([] :: (c :: l2) :: ls))
      with ([] :: collapse_blank_runs ((c :: l2) :: ls)).
    rewrite has_blank_run_cons. apply orb_false_iff. split; [|exact IH].
    rewrite collapse_starts. reflexivity.
  - assert (E : collapse_blank_runs ((c :: l) :: ls)
                = (c :: l) :: collapse_blank_runs ls)
      by (destruct ls; reflexivity).
    rewrite E. rewrite has_blank_run_cons. exact IH.
Qed.

Lemma drop_trailing_blank_starts (ls : list str) :
  drop_trailing_blank ls <> [] ->
  starts_blank (drop_trailing_blank ls) = starts_blank ls.
Proof.
  destruct ls as [|l ls]; [reflexivity|].
  simpl. destruct (drop_trailing_blank ls); [|reflexivity].
  destruct l; simpl; [congruence | reflexivity].
Qed.

Lemma drop_trailing_blank_no_run (ls : list str) :
  has_blank_run ls = false -> has_blank_run (drop_trailing_blank ls) = false.
Proof.
  induction ls as [|l ls IH]; [reflexivity|].
  rewrite has_blank_run_cons. intros H.
  apply orb_false_iff in H. destruct H as [H1 H2].
  pose proof (drop_trailing_blank_starts ls) as Hs.
  simpl drop_trailing_blank.
  destruct (drop_trailing_blank ls) as [|x r].
  - destruct l; reflexivity.
  - rewrite has_blank_run_cons, (IH H2), Hs, H1 by discriminate.
    reflexivity.
Qed.

Lemma drop_trailing_blank_ends (ls : list str) :
  ends_blank (drop_trailing_blank ls) = false.
Proof.
  induction ls as [|l ls IH]; [reflexivity|].
  simpl drop_trailing_blank.
  destruct (drop_trailing_blank ls) as [|x r].
  - destruct l; reflexivity.
  - exact IH.
Qed.

Lemma drop_leading_blank_starts (ls : list str) :
  starts_blank (drop_leading_blank ls) = false.
Proof.
  induction ls as [|[|c l] ls IH]; [reflexivity | exact IH | reflexivity].
Qed.

Lemma drop_leading_blank_no_run (ls : list str) :
  has_blank_run ls = false -> has_blank_run (drop_leading_blank ls) = false.
Proof.
  induction ls as [|[|c l] ls IH]; [reflexivity | | tauto].
  rewrite has_blank_run_cons. intros H.
  apply orb_false_iff in H. apply IH, H.
Qed.

Lemma drop_leading_blank_ends (ls : list str) :
  ends_blank ls = false -> ends_blank (drop_leading_blank ls) = false.
Proof.
  induction ls as [|[|c l] ls IH]; [reflexivity | | tauto].
  destruct ls as [|l2 ls]; [discriminate|].
  intros H. apply IH, H.
Qed.

Lemma drop_leading_blank_Forall (P : str -> Prop) (ls : list str) :
  Forall P ls -> Forall P (drop_leading_blank ls).
Proof.
  induction 1 as [|[|c l] ls Hl Hls IH]; simpl; auto.
Qed.

Lemma lstrip_trimmed_empty (l : str) :
  trimmed l -> is_empty (lstrip l) = is_empty l.
Proof.
  intros Hl. destruct l as [|c l]; [reflexivity|].
  assert (H : lstrip (c :: l) <> [])
    by (apply lstrip_kept_nonempty; rewrite Hl; discriminate).
  destruct (lstrip (c :: l)); [congruence | reflexivity].
Qed.

Lemma lstrip_head_blanks (ls : list str) :
  Forall trimmed ls ->
  starts_blank (lstrip_head ls) = starts_blank ls
  /\ has_blank_run (lstrip_head ls) = has_blank_run ls
  /\ ends_blank (lstrip_head ls) = ends_blank ls.
Proof.
  intros H. destruct H as [|l ls Hl _]; [repeat split|].
  pose proof (@lstrip_trimmed_empty l Hl) as E.
  repeat split.
  - exact E.
  - unfold lstrip_head. rewrite !has_blank_run_cons. now rewrite E.
  - destruct ls; [exact E | reflexivity].
Qed.

Lemma normalized_lines_blanks (md : str) :
  has_blank_run (normalized_lines md) = false
  /\ starts_blank (normalized_lines md) = false
  /\ ends_blank (normalized_lines md) = false.
Proof.
  unfold normalized_lines.
  set (ls := collapse_blank_runs _).
  assert (Hls : Forall trimmed ls) by apply collapse_Forall, trimmed_lines.
  assert (Ht : Forall trimmed (drop_leading_blank (drop_trailing_blank ls)))
    by apply drop_leading_blank_Forall, drop_trailing_blank_Forall, Hls.
  destruct (@lstrip_head_blanks _ Ht) as (-> & -> & ->).
  repeat split.
  - apply drop_leading_blank_no_run, drop_trailing_blank_no_run,
      collapse_no_run.
  - apply drop_leading_blank_starts.
  - apply drop_leading_blank_ends, drop_trailing_blank_ends.
Qed.

Example normalized_lines_spaced :
  normalized_lines spaced_markdown
  = [lit "# Title"; []; lit "- item"; lit "  - nested"]
  /\ clean_markdown spaced_markdown
     = lit "# Title" ++ nl ++ nl ++ lit "- item" ++ nl ++ lit "  - nested".
Proof. split; vm_compute; reflexivity. Qed.

(** C9: the text of a fetched HTML page is the converted text with
    its lines right-trimmed, every run of blank lines collapsed to one
    blank line, and the blank lines at both ends removed
    ([normalized_lines]); no two blank lines in a row and no blank
    first or last line are left. *)
Theorem blank_line_runs_collapsed (w : World) (url url_description : str)
    (resp : response) (markdown_content : str) (tr : list event) :
  http_get w (read_request w url) = Return resp ->
  fetched_html resp ->
  html_to_markdown w (text resp) = Return markdown_content ->
  _read_url_content w url url_description tr
  = (Return
       (envelope (lit "# Content from " ++ url ++ nl ++ nl
                  ++ join nl (normalized_lines markdown_content))),
     tr ++ [HttpGet (read_request w url)])
  /\ has_blank_run (normalized_lines markdown_content) = false
  /\ starts_blank (normalized_lines markdown_content) = false
  /\ ends_blank (normalized_lines markdown_content) = false.
Proof.
  intros Hget Hok Hmd. split; [|apply normalized_lines_blanks].
  rewrite (@read_url_on_html w url url_description resp Hget tr Hok), Hmd.
  rewrite clean_markdown_normalized. unfold content_header.
  now rewrite <- !app_assoc.
Qed.

Lemma blank_line_runs_collapsed_witness :
  _read_url_content (serving (Return spaced_markdown))
    (lit "https://handbook.giantswarm.io/docs/") (lit "Handbook") []
  = (Return
       (envelope (lit "# Content from "
                  ++ lit "https://handbook.giantswarm.io/docs/" ++ nl ++ nl
                  ++ join nl (normalized_lines spaced_markdown))),
     [] ++ [HttpGet (read_request (serving (Return spaced_markdown))
                       (lit "https://handbook.giantswarm.io/docs/"))])
  /\ has_blank_run (normalized_lines spaced_markdown) = false
  /\ starts_blank (normalized_lines spaced_markdown) = false
  /\ ends_blank (normalized_lines spaced_markdown) = false.
Proof.
  apply (@blank_line_runs_collapsed (serving (Return spaced_markdown))
           (lit "https://handbook.giantswarm.io/docs/") (lit "Handbook")
           html_page spaced_markdown []).
  - reflexivity.
  - constructor; reflexivity.
  - reflexivity.
Defined.
Example lit_cross : lit "❌ a" = [10060; 32; 97]%N.
Proof. reflexivity. Qed.
Example dec_examples :
  dec 0 = lit "0" /\ dec 31 = lit "31" /\ dec (-5) = lit "-5".
Proof. repeat split; reflexivity. Qed.
Example split_example :
  split_lines (lit "a" ++ nl ++ nl ++ lit "b" ++ nl) = [lit "a"; []; lit "b"; []].
Proof. reflexivity. Qed.
Example strip_example :
  strip (lit "  a b " ++ nl) = lit "a b" /\ rstrip (lit " ") = [].
Proof. split; reflexivity. Qed.

(** ** More on the query and on blank lines *)

Lemma count_key_match_clause (f b : str) :
  count_key (lit "match")
    (d1 "match" (PDict [(lit "breadcrumb_" ++ f, PStr b)]))
  = 1%nat.
Proof. vm_compute. reflexivity. Qed.

Lemma count_key_bool_must (cs : list pyval) :
  count_key (lit "match") (d1 "bool" (d1 "must" (PList cs)))
  = list_sum (map (count_key (lit "match")) cs).
Proof.
  transitivity
    (list_sum (map (count_key (lit "match")) cs) + 0 + 0)%nat;
    [reflexivity | lia].
Qed.

Lemma count_key_base_query (term : str) :
  count_key (lit "match") (base_query term) = 0%nat.
Proof. reflexivity. Qed.

Lemma list_sum_cons (a : nat) (l : list nat) :
  list_sum (a :: l) = (a + list_sum l)%nat.
Proof. reflexivity. Qed.

Lemma count_key_clauses (fbs : list (str * str)) :
  list_sum
    (map (count_key (lit "match"))
       (map (fun fb : str * pyval => d1 "match" (PDict [(fst fb, snd fb)]))
            (map (fun fb : str * str =>
                    (lit "breadcrumb_" ++ fst fb, PStr (snd fb))) fbs)))
  = length fbs.
Proof.
  induction fbs as [|[f b] fbs IH]; [reflexivity|].
  rewrite !map_cons, list_sum_cons, IH. cbn [fst snd].
  now rewrite count_key_match_clause.
Qed.

(** With [str] segments, the whole query has N keys ["match"], the
    ones of the positional clauses. *)
Lemma breadcrumb_filter_match_count (term type_filter : str)
    (segments : list str) :
  count_key (lit "match") (build_query term type_filter (map PStr segments))
  = length segments.
Proof.
  assert (E : forall k,
             combine (map breadcrumb_field (seq k (length segments)))
                     (map PStr segments)
             = map (fun fb : str * str =>
                      (lit "breadcrumb_" ++ fst fb, PStr (snd fb)))
                   (combine (map (fun i => dec (Z.of_nat i))
                                 (seq k (length segments))) segments)).
  { induction segments as [|s segments IH]; intros k; [reflexivity|].
    cbn [length seq map combine fst snd]. now rewrite IH. }
  unfold build_query. rewrite build_must_clauses_eq, length_map, E.
  set (fbs := combine _ segments).
  assert (Hlen : length fbs = length segments)
    by (unfold fbs; rewrite length_combine, length_map, length_seq; lia).
  pose proof (count_key_clauses fbs) as Hc.
  destruct (1 <? _)%nat eqn:L.
  - rewrite count_key_bool_must, map_cons, list_sum_cons, map_app,
      list_sum_app, Hc, count_key_base_query, Hlen.
    destruct (str_eqb type_filter []); reflexivity.
  - rewrite count_key_base_query.
    apply Nat.ltb_ge in L. cbn [length] in L.
    rewrite length_app, !length_map, Hlen in L. lia.
Qed.

(** Collapsing and trimming remove blank lines only. *)
Lemma collapse_keeps_nonblank (ls : list str) :
  filter nonblank (collapse_blank_runs ls) = filter nonblank ls.
Proof.
  induction ls as [|l ls IH]; [reflexivity|].
  destruct l as [|c l].
  - destruct ls as [|[|c l2] ls]; exact IH.
  - assert (E : collapse_blank_runs ((c :: l) :: ls)
                = (c :: l) :: collapse_blank_runs ls)
      by (destruct ls; reflexivity).
    rewrite E. cbn [filter nonblank is_empty negb]. now rewrite IH.
Qed.

Lemma drop_trailing_keeps_nonblank (ls : list str) :
  filter nonblank (drop_trailing_blank ls) = filter nonblank ls.
Proof.
  induction ls as [|l ls IH]; [reflexivity|].
  simpl drop_trailing_blank.
  destruct (drop_trailing_blank ls) as [|x r].
  - simpl in IH. destruct l; simpl; now rewrite <- IH.
  - cbn [filter] in *. now rewrite IH.
Qed.

Lemma drop_leading_keeps_nonblank (ls : list str) :
  filter nonblank (drop_leading_blank ls) = filter nonblank ls.
Proof.
  induction ls as [|[|c l] ls IH]; [reflexivity | exact IH | reflexivity].
Qed.

(** * Further properties *)

(** ** Credentials and requests *)

Lemma read_request_eq (w : World) (url : str) :
  read_request w url = mkRequest url None (session_cookies w) None.
Proof.
  unfold read_request, AuthManager.get_auth_headers, session_cookies.
  destruct (getenv_cookie w) as [[|c s]|]; reflexivity.
Qed.

(** X1: the two methods of [AuthManager] agree: the configuration
    has the entry [cookies], holding the value of the variable under
    [_oauth2_proxy], exactly when [is_authenticated] holds, and it never
    has an entry [headers]; an empty value counts as no credential. *)
Theorem auth_headers_agree_with_is_authenticated (w : World) :
  Py.lookup (lit "headers") (AuthManager.get_auth_headers w) = None
  /\ Py.lookup (lit "cookies") (AuthManager.get_auth_headers w)
     = session_cookies w
  /\ AuthManager.is_authenticated w
     = match session_cookies w with Some _ => true | None => false end.
Proof.
  unfold AuthManager.get_auth_headers, AuthManager.is_authenticated,
    session_cookies.
  destruct (getenv_cookie w) as [[|c s]|]; repeat split.
Qed.

(** X2: the request of [search] goes to the intranet endpoint with
    the session cookie when a credential is set, to the public endpoint
    with neither cookies nor headers when none is; its JSON body is the
    payload. *)
Theorem search_request_by_credential (w : World) (payload : pyval) :
  search_request w payload
  = mkRequest
      (if AuthManager.is_authenticated w
       then lit "https://intranet.giantswarm.io/searchapi/"
       else lit "https://docs.giantswarm.io/searchapi/")
      None
      (if AuthManager.is_authenticated w then session_cookies w else None)
      (Some payload).
Proof.
  unfold search_request, AuthManager.get_auth_headers,
    AuthManager.is_authenticated, session_cookies, search_url.
  destruct (getenv_cookie w) as [[|c s]|]; reflexivity.
Qed.

(** ** What goes over the network *)

Ltac run_paths :=
  repeat match goal with
         | |- context [if ?b then _ else _] => destruct b
         | |- context [match ?o with Return _ => _ | Raise _ => _ end] =>
           destruct o
         end;
  cbn [fst snd]; rewrite <- ?app_assoc; try reflexivity.

(** X3: [search] issues no request when its guard rejects the call
    or when the debug lines before its [try] raise, and otherwise
    exactly one POST, of the payload, followed by one call of
    [json.loads] on the body when the transport returned one; it never
    issues a GET or a second request, whichever path it takes. *)
Theorem search_issues_one_post (w : World) (term : str)
    (start_index size : Z) (type_filter : str)
    (breadcrumb_filter : list pyval) (tr : list event) :
  snd (search w term start_index size type_filter breadcrumb_filter tr)
  = tr
    ++ (if negb (AuthManager.is_authenticated w)
           && str_eqb type_filter (lit "Intranet")
        then []
        else
          match
            debug_search_parameters w breadcrumb_filter
              (build_payload term start_index size type_filter
                             breadcrumb_filter)
          with
          | Raise _ => []
          | Return _ =>
            HttpPost
              (search_request w
                 (build_payload term start_index size type_filter
                                breadcrumb_filter))
            :: match
                 http_post w
                   (search_request w
                      (build_payload term start_index size type_filter
                                     breadcrumb_filter))
               with
               | Return resp => [JsonLoads (text resp)]
               | Raise _ => []
               end
          end).
Proof.
  unfold search. cbv zeta.
  destruct (negb _ && _); [cbn [mret snd]; now rewrite app_nil_r|].
  destruct (debug_search_parameters w _ _) as [[]|e0];
    [|cbn [mbind lift snd]; now rewrite app_nil_r].
  unfold try_except, try_except_else, mbind, lift.
  rewrite session_post_run.
  destruct (http_post w _) as [resp|e].
  - rewrite loads_run. unfold lift, mret.
    destruct (json_loads w (text resp)) as [j|e]; run_paths.
  - unfold mret. run_paths.
Qed.

(** X4: [_read_url_content] issues exactly one GET, for the URL it
    was given and with the session cookie whenever one is set, and
    nothing else, whichever path it takes; so the two page tools issue
    that one GET when they accept the call and nothing when they reject
    it, and they never call [json.loads]. *)
Theorem page_read_issues_one_get (w : World) (url url_description : str)
    (tr : list event) :
  snd (_read_url_content w url url_description tr)
  = tr ++ [HttpGet (mkRequest url None (session_cookies w) None)]
  /\ snd (read_handbook_url w url tr)
     = tr ++ (if startswith (lit "https://handbook.giantswarm.io/") url
              then [HttpGet (mkRequest url None (session_cookies w) None)]
              else [])
  /\ snd (read_intranet_url w url tr)
     = tr ++ (if AuthManager.is_authenticated w
                 && startswith (lit "https://intranet.giantswarm.io/") url
              then [HttpGet (mkRequest url None (session_cookies w) None)]
              else []).
Proof.
  assert (E : forall d,
             snd (_read_url_content w url d tr)
             = tr ++ [HttpGet (mkRequest url None (session_cookies w) None)]).
  { intros d. unfold _read_url_content. cbv zeta.
    unfold try_except, try_except_else, mbind.
    rewrite session_get_run, read_request_eq. unfold lift, mret.
    destruct (http_get w _) as [resp|e]; run_paths. }
  split; [apply E|]. split.
  - unfold read_handbook_url.
    destruct (startswith _ url); cbn [negb]; [apply E|].
    cbn [mret snd]. now rewrite app_nil_r.
  - unfold read_intranet_url.
    destruct (AuthManager.is_authenticated w); cbn [negb andb];
      [|cbn [mret snd]; now rewrite app_nil_r].
    destruct (startswith _ url); cbn [negb]; [apply E|].
    cbn [mret snd]. now rewrite app_nil_r.
Qed.

(** ** The guards of the tools *)

(** X5: the page tools check before they fetch.  The handbook tool
    rejects a URL outside the handbook prefix; the intranet tool asks
    for a credential first, whatever the URL, and with a credential
    rejects a URL outside the intranet prefix.  No event is issued. *)
Theorem page_tools_validate_first (w : World) (url : str) (tr : list event) :
  (startswith (lit "https://handbook.giantswarm.io/") url = false ->
   read_handbook_url w url tr = (Return (envelope msg_handbook_url), tr))
  /\ (AuthManager.is_authenticated w = false ->
      read_intranet_url w url tr = (Return (envelope msg_intranet_auth), tr))
  /\ (AuthManager.is_authenticated w = true ->
      startswith (lit "https://intranet.giantswarm.io/") url = false ->
      read_intranet_url w url tr = (Return (envelope msg_intranet_url), tr)).
Proof.
  unfold read_handbook_url, read_intranet_url, msg_handbook_url,
    msg_intranet_auth, msg_intranet_url, mret.
  repeat split.
  - intros H. rewrite H. reflexivity.
  - intros H. rewrite H. reflexivity.
  - intros H1 H2. rewrite H1, H2. reflexivity.
Qed.

Lemma page_tools_validate_first_witness :
  read_handbook_url (serving (Return []))
    (lit "https://handbook.giantswarm.io.example.org/x") []
  = (Return (envelope msg_handbook_url), [])
  /\ read_intranet_url (serving (Return []))
       (lit "https://handbook.giantswarm.io/docs/") []
     = (Return (envelope msg_intranet_auth), [])
  /\ read_intranet_url (answering (Some (lit "c00kie")) PNone)
       (lit "http://intranet.giantswarm.io/docs/") []
     = (Return (envelope msg_intranet_url), []).
Proof.
  split; [|split].
  - apply (proj1 (page_tools_validate_first (serving (Return []))
                    (lit "https://handbook.giantswarm.io.example.org/x") [])).
    reflexivity.
  - apply (proj1 (proj2 (page_tools_validate_first (serving (Return []))
                           (lit "https://handbook.giantswarm.io/docs/") []))).
    reflexivity.
  - apply (proj2 (proj2 (page_tools_validate_first
                           (answering (Some (lit "c00kie")) PNone)
                           (lit "http://intranet.giantswarm.io/docs/") [])));
      reflexivity.
Defined.

(** X6: without a credential the runbook and ops-recipe searches
    return their guidance message and issue no event. *)
Theorem specialised_searches_need_credential (w : World) (term : str)
    (start_index size : Z) (tr : list event) :
  AuthManager.is_authenticated w = false ->
  search_runbook w term start_index size tr
  = (Return (envelope msg_runbook_auth), tr)
  /\ search_ops_recipe w term start_index size tr
     = (Return (envelope msg_ops_recipe_auth), tr).
Proof.
  intros H. unfold search_runbook, search_ops_recipe. rewrite H.
  cbn [negb]. unfold mret, msg_runbook_auth, msg_ops_recipe_auth.
  split; reflexivity.
Qed.

Lemma specialised_searches_need_credential_witness :
  search_runbook (answering None two_hits) (lit "etcd") 0 30 []
  = (Return (envelope msg_runbook_auth), [])
  /\ search_ops_recipe (answering None two_hits) (lit "etcd") 0 30 []
     = (Return (envelope msg_ops_recipe_auth), []).
Proof.
  apply (specialised_searches_need_credential (answering None two_hits)
           (lit "etcd") 0 30 []).
  reflexivity.
Defined.

(** X7: with a credential the runbook and ops-recipe searches are
    [search] with no type filter and their fixed breadcrumb filter, so
    the query they post ANDs the base query with [breadcrumb_1] =
    ["support-and-ops"] and [breadcrumb_2] = ["runbooks"] (or
    ["ops-recipes"]). *)
Theorem specialised_searches_fix_the_breadcrumbs (w : World) (term : str)
    (start_index size : Z) (tr : list event) :
  AuthManager.is_authenticated w = true ->
  search_runbook w term start_index size tr
  = search w term start_index size [] runbook_filter tr
  /\ search_ops_recipe w term start_index size tr
     = search w term start_index size [] ops_recipe_filter tr
  /\ build_query term [] runbook_filter
     = d1 "bool"
         (d1 "must"
            (PList
               [base_query term;
                d1 "match"
                   (PDict [(lit "breadcrumb_1", PStr (lit "support-and-ops"))]);
                d1 "match"
                   (PDict [(lit "breadcrumb_2", PStr (lit "runbooks"))])]))
  /\ build_query term [] ops_recipe_filter
     = d1 "bool"
         (d1 "must"
            (PList
               [base_query term;
                d1 "match"
                   (PDict [(lit "breadcrumb_1", PStr (lit "support-and-ops"))]);
                d1 "match"
                   (PDict [(lit "breadcrumb_2", PStr (lit "ops-recipes"))])])).
Proof.
  intros H. unfold search_runbook, search_ops_recipe. rewrite H.
  cbn [negb]. unfold runbook_filter, ops_recipe_filter.
  split; [reflexivity|]. split; [reflexivity|].
  split; vm_compute; reflexivity.
Qed.

Lemma specialised_searches_fix_the_breadcrumbs_witness :
  search_runbook (answering (Some (lit "c00kie")) two_hits) (lit "etcd") 0 30 []
  = search (answering (Some (lit "c00kie")) two_hits) (lit "etcd") 0 30 []
           runbook_filter [].
Proof.
  apply (specialised_searches_fix_the_breadcrumbs
           (answering (Some (lit "c00kie")) two_hits) (lit "etcd") 0 30 []).
  reflexivity.
Defined.

(** ** How a page read classifies the answer *)

(** X8: a page answer that holds the sign-in marker or has status 401
    gives the authentication message, also when the status is 404;
    otherwise status 404 gives "Page not found" with the URL, and any
    other status than 200 gives the status and the reason. *)
Theorem page_read_classifies_failures (w : World) (url url_description : str)
    (resp : response) (tr : list event) :
  http_get w (read_request w url) = Return resp ->
  (contains marker (text resp) = true \/ status resp = 401%Z ->
   _read_url_content w url url_description tr
   = (Return (envelope msg_auth_failed),
      tr ++ [HttpGet (read_request w url)]))
  /\ (contains marker (text resp) = false -> status resp = 404%Z ->
      _read_url_content w url url_description tr
      = (Return (envelope (lit "❌ Page not found: " ++ url)),
         tr ++ [HttpGet (read_request w url)]))
  /\ (contains marker (text resp) = false ->
      status resp <> 401%Z -> status resp <> 404%Z -> status resp <> 200%Z ->
      _read_url_content w url url_description tr
      = (Return
           (envelope (lit "❌ HTTP " ++ dec (status resp) ++ lit ": "
                      ++ fmt_reason (reason resp)
                      ++ lit ". Please check the URL or try again.")),
         tr ++ [HttpGet (read_request w url)])).
Proof.
  intros Hget.
  unfold _read_url_content, try_except, try_except_else, mbind. cbv zeta.
  rewrite session_get_run, Hget. repeat split.
  - intros [-> | ->]; [reflexivity|].
    now rewrite orb_true_r.
  - intros -> ->. reflexivity.
  - intros -> H1 H4 H2.
    apply Z.eqb_neq in H1, H4, H2. now rewrite H1, H4, H2.
Qed.

Lemma page_read_classifies_failures_witness :
  _read_url_content
    (mock None
       (Return (mkResponse 404 (Some (lit "Not Found")) (Some (lit "text/html"))
                           (lit "<h1>Sign in to GitHub</h1>")))
       (Return PNone) (Return []))
    (lit "https://handbook.giantswarm.io/x") (lit "Handbook") []
  = (Return (envelope msg_auth_failed),
     [] ++ [HttpGet (read_request
                       (mock None
                          (Return (mkResponse 404 (Some (lit "Not Found"))
                                              (Some (lit "text/html"))
                                              (lit "<h1>Sign in to GitHub</h1>")))
                          (Return PNone) (Return []))
                       (lit "https://handbook.giantswarm.io/x"))]).
Proof.
  refine (proj1 (@page_read_classifies_failures
                   (mock None
                      (Return (mkResponse 404 (Some (lit "Not Found"))
                                          (Some (lit "text/html"))
                                          (lit "<h1>Sign in to GitHub</h1>")))
                      (Return PNone) (Return []))
                   (lit "https://handbook.giantswarm.io/x") (lit "Handbook")
                   (mkResponse 404 (Some (lit "Not Found"))
                               (Some (lit "text/html"))
                               (lit "<h1>Sign in to GitHub</h1>"))
                   [] _) _).
  - reflexivity.
  - left. reflexivity.
Defined.

(** X9: a page answer with status 200 and no marker whose content
    type is missing or does not contain [html] (in any case of the
    letters) is returned as it is under the header; the converter is
    not consulted. *)
Theorem non_html_page_is_passed_through (w : World)
    (url url_description : str) (resp : response) (tr : list event) :
  http_get w (read_request w url) = Return resp ->
  contains marker (text resp) = false ->
  status resp = 200%Z ->
  is_html resp = false ->
  _read_url_content w url url_description tr
  = (Return (envelope (lit "# Content from " ++ url ++ nl ++ nl ++ text resp)),
     tr ++ [HttpGet (read_request w url)]).
Proof.
  intros Hget Hm Hs Hh.
  unfold _read_url_content, try_except, try_except_else, mbind. cbv zeta.
  rewrite session_get_run, Hget, Hm, Hs, Hh.
  cbn [orb Z.eqb Pos.eqb negb]. unfold mret, content_header.
  now rewrite <- !app_assoc.
Qed.

Lemma non_html_page_is_passed_through_witness :
  _read_url_content
    (mock None
       (Return (mkResponse 200 (Some (lit "OK")) None
                           (lit "plain  text" ++ nl ++ nl ++ nl)))
       (Return PNone)
       (Raise (mkExn KeyboardInterrupt [])))
    (lit "https://handbook.giantswarm.io/robots.txt") (lit "Handbook") []
  = (Return (envelope (lit "# Content from "
                       ++ lit "https://handbook.giantswarm.io/robots.txt"
                       ++ nl ++ nl ++ (lit "plain  text" ++ nl ++ nl ++ nl))),
     [] ++ [HttpGet (read_request
                       (mock None
                          (Return (mkResponse 200 (Some (lit "OK")) None
                                     (lit "plain  text" ++ nl ++ nl ++ nl)))
                          (Return PNone)
                          (Raise (mkExn KeyboardInterrupt [])))
                       (lit "https://handbook.giantswarm.io/robots.txt"))]).
Proof.
  apply (@non_html_page_is_passed_through
           (mock None
              (Return (mkResponse 200 (Some (lit "OK")) None
                                  (lit "plain  text" ++ nl ++ nl ++ nl)))
              (Return PNone)
              (Raise (mkExn KeyboardInterrupt [])))
           (lit "https://handbook.giantswarm.io/robots.txt") (lit "Handbook")
           (mkResponse 200 (Some (lit "OK")) None
                       (lit "plain  text" ++ nl ++ nl ++ nl)) []);
    reflexivity.
Defined.



(** ** How [search] classifies the answer *)

(** X11: once the debug lines have returned, a body on which
    [json.loads] raises [JSONDecodeError] gives "Invalid JSON response"
    with the status and the first 200 characters of the body, whatever
    the status is (401 and 5xx included) and whatever the body holds. *)
Theorem unparsable_answer_is_quoted (w : World) (term : str)
    (start_index size : Z) (type_filter : str)
    (breadcrumb_filter : list pyval) (resp : response) (e : exn)
    (tr : list event) :
  AuthManager.is_authenticated w = true \/ type_filter <> lit "Intranet" ->
  debug_search_parameters w breadcrumb_filter
    (build_payload term start_index size type_filter breadcrumb_filter)
  = Return tt ->
  http_post w
    (search_request w
       (build_payload term start_index size type_filter breadcrumb_filter))
  = Return resp ->
  json_loads w (text resp) = Raise e ->
  is_JSONDecodeError e = true ->
  search w term start_index size type_filter breadcrumb_filter tr
  = (Return
       (envelope
          (lit "❌ Invalid JSON response from server." ++ nl ++ nl
           ++ lit "Response status: " ++ dec (status resp) ++ nl
           ++ lit "Response preview: " ++ firstn 200 (text resp))),
     tr ++ search_events w
             (build_payload term start_index size type_filter
                            breadcrumb_filter) resp)
  /\ (length (firstn 200 (text resp)) <= 200)%nat.
Proof.
  intros Hg Hd Hp Hj He. split; [|apply firstn_le_length].
  exact (@search_on_invalid_json w term start_index size type_filter
           breadcrumb_filter Hg Hd resp Hp tr e Hj He).
Qed.

Lemma unparsable_answer_is_quoted_witness :
  search
    (mock (Some (lit "c00kie"))
       (Return (mkResponse 503 (Some (lit "Service Unavailable"))
                           (Some (lit "text/plain")) (lit "upstream down")))
       (Raise (mkExn JSONDecodeError
                     (lit "Expecting value: line 1 column 1 (char 0)")))
       (Return []))
    (lit "cilium") 0 30 [] [] []
  = (Return
       (envelope
          (lit "❌ Invalid JSON response from server." ++ nl ++ nl
           ++ lit "Response status: " ++ dec 503 ++ nl
           ++ lit "Response preview: " ++ firstn 200 (lit "upstream down"))),
     [] ++ search_events
             (mock (Some (lit "c00kie"))
                (Return (mkResponse 503 (Some (lit "Service Unavailable"))
                                    (Some (lit "text/plain"))
                                    (lit "upstream down")))
                (Raise (mkExn JSONDecodeError
                              (lit "Expecting value: line 1 column 1 (char 0)")))
                (Return []))
             (build_payload (lit "cilium") 0 30 [] [])
             (mkResponse 503 (Some (lit "Service Unavailable"))
                         (Some (lit "text/plain")) (lit "upstream down"))).
Proof.
  refine (proj1 (@unparsable_answer_is_quoted
                   (mock (Some (lit "c00kie"))
                      (Return (mkResponse 503 (Some (lit "Service Unavailable"))
                                          (Some (lit "text/plain"))
                                          (lit "upstream down")))
                      (Raise (mkExn JSONDecodeError
                                (lit "Expecting value: line 1 column 1 (char 0)")))
                      (Return []))
                   (lit "cilium") 0%Z 30%Z [] []
                   (mkResponse 503 (Some (lit "Service Unavailable"))
                               (Some (lit "text/plain")) (lit "upstream down"))
                   (mkExn JSONDecodeError
                          (lit "Expecting value: line 1 column 1 (char 0)"))
                   [] _ _ _ _ _)).
  - left. reflexivity.
  - vm_compute. reflexivity.
  - reflexivity.
  - reflexivity.
  - reflexivity.
Defined.

(** X12: once the debug lines have returned (lines 260 to 262 on the
    arguments, line 294 on the parsed body), a body that parses and
    holds the sign-in marker, or comes with status 401, gives the
    "expired" message when a credential is set and the "required"
    message when none is. *)
Theorem parsed_sign_in_answer_by_credential (w : World) (term : str)
    (start_index size : Z) (type_filter : str)
    (breadcrumb_filter : list pyval) (resp : response)
    (response_json : pyval) (tr : list event) :
  AuthManager.is_authenticated w = true \/ type_filter <> lit "Intranet" ->
  debug_search_parameters w breadcrumb_filter
    (build_payload term start_index size type_filter breadcrumb_filter)
  = Return tt ->
  http_post w
    (search_request w
       (build_payload term start_index size type_filter breadcrumb_filter))
  = Return resp ->
  json_loads w (text resp) = Return response_json ->
  debug_parsed_json w response_json = Return tt ->
  contains marker (text resp) = true \/ status resp = 401%Z ->
  search w term start_index size type_filter breadcrumb_filter tr
  = (Return (envelope (if AuthManager.is_authenticated w
                       then msg_expired else msg_required)),
     tr ++ search_events w
             (build_payload term start_index size type_filter
                            breadcrumb_filter) resp).
Proof.
  intros Hg Hd Hp Hj Hprinted Hm.
  assert (Hc : contains marker (text resp) || (status resp =? 401)%Z = true).
  { destruct Hm as [-> | ->]; [reflexivity | apply orb_true_r]. }
  enter_search Hg Hd.
  unfold try_except, try_except_else, mbind.
  rewrite session_post_run, Hp, loads_run, Hj. unfold lift at 1.
  rewrite Hprinted, Hc.
  unfold search_events. rewrite <- app_assoc.
  now destruct (AuthManager.is_authenticated w).
Qed.

Lemma parsed_sign_in_answer_by_credential_witness :
  search
    (mock None
       (Return (mkResponse 401 (Some (lit "Unauthorized"))
                           (Some (lit "application/json")) (lit "{}")))
       (Return (PDict [])) (Return []))
    (lit "cilium") 0 30 [] [] []
  = (Return
       (envelope
          (if AuthManager.is_authenticated
                (mock None
                   (Return (mkResponse 401 (Some (lit "Unauthorized"))
                                       (Some (lit "application/json"))
                                       (lit "{}")))
                   (Return (PDict [])) (Return []))
           then msg_expired else msg_required)),
     [] ++ search_events
             (mock None
                (Return (mkResponse 401 (Some (lit "Unauthorized"))
                                    (Some (lit "application/json"))
                                    (lit "{}")))
                (Return (PDict [])) (Return []))
             (build_payload (lit "cilium") 0 30 [] [])
             (mkResponse 401 (Some (lit "Unauthorized"))
                         (Some (lit "application/json")) (lit "{}"))).
Proof.
  refine (@parsed_sign_in_answer_by_credential
            (mock None
               (Return (mkResponse 401 (Some (lit "Unauthorized"))
                                   (Some (lit "application/json"))
                                   (lit "{}")))
               (Return (PDict [])) (Return []))
            (lit "cilium") 0%Z 30%Z [] []
            (mkResponse 401 (Some (lit "Unauthorized"))
                        (Some (lit "application/json")) (lit "{}"))
            (PDict []) [] _ _ _ _ _ _).
  - right. discriminate.
  - vm_compute. reflexivity.
  - reflexivity.
  - reflexivity.
  - vm_compute. reflexivity.
  - right. reflexivity.
Defined.

(** X13: once the debug lines have returned (lines 260 to 262 on the
    arguments, line 294 on the parsed body), a body that parses, without
    the marker and not starting with markup, under a status other than
    200 and 401, gives the status and the reason; its hits are not
    rendered. *)
Theorem parsed_answer_with_error_status (w : World) (term : str)
    (start_index size : Z) (type_filter : str)
    (breadcrumb_filter : list pyval) (resp : response)
    (response_json : pyval) (tr : list event) :
  AuthManager.is_authenticated w = true \/ type_filter <> lit "Intranet" ->
  debug_search_parameters w breadcrumb_filter
    (build_payload term start_index size type_filter breadcrumb_filter)
  = Return tt ->
  http_post w
    (search_request w
       (build_payload term start_index size type_filter breadcrumb_filter))
  = Return resp ->
  json_loads w (text resp) = Return response_json ->
  debug_parsed_json w response_json = Return tt ->
  contains marker (text resp) = false ->
  startswith (lit "<") (strip (text resp)) = false ->
  status resp <> 401%Z -> status resp <> 200%Z ->
  search w term start_index size type_filter breadcrumb_filter tr
  = (Return
       (envelope (lit "❌ HTTP " ++ dec (status resp) ++ lit ": "
                  ++ fmt_reason (reason resp) ++ lit ". Please try again.")),
     tr ++ search_events w
             (build_payload term start_index size type_filter
                            breadcrumb_filter) resp).
Proof.
  intros Hg Hd Hp Hj Hprinted Hm Hh H1 H2. apply Z.eqb_neq in H1, H2.
  enter_search Hg Hd.
  unfold try_except, try_except_else, mbind.
  rewrite session_post_run, Hp, loads_run, Hj. unfold lift at 1.
  rewrite Hprinted, Hm, Hh, H1, H2.
  unfold search_events. now rewrite <- app_assoc.
Qed.

Lemma parsed_answer_with_error_status_witness :
  search
    (mock None
       (Return (mkResponse 500 None (Some (lit "application/json"))
                           (dumps two_hits)))
       (Return two_hits) (Return []))
    (lit "A") 0 30 [] [] []
  = (Return
       (envelope (lit "❌ HTTP " ++ dec 500 ++ lit ": " ++ fmt_reason None
                  ++ lit ". Please try again.")),
     [] ++ search_events
             (mock None
                (Return (mkResponse 500 None (Some (lit "application/json"))
                                    (dumps two_hits)))
                (Return two_hits) (Return []))
             (build_payload (lit "A") 0 30 [] [])
             (mkResponse 500 None (Some (lit "application/json"))
                         (dumps two_hits))).
Proof.
  refine (@parsed_answer_with_error_status
            (mock None
               (Return (mkResponse 500 None (Some (lit "application/json"))
                                   (dumps two_hits)))
               (Return two_hits) (Return []))
            (lit "A") 0%Z 30%Z [] []
            (mkResponse 500 None (Some (lit "application/json"))
                        (dumps two_hits))
            two_hits [] _ _ _ _ _ _ _ _ _).
  - right. discriminate.
  - vm_compute. reflexivity.
  - reflexivity.
  - reflexivity.
  - vm_compute. reflexivity.
  - reflexivity.
  - reflexivity.
  - discriminate.
  - discriminate.
Defined.

(** X14: a success-classified body that is valid JSON but not an
    object, or whose [hits] is not an object, is not reported as an
    unexpected format: the [AttributeError] of [.get] reaches the outer
    handler and the answer is ["Error accessing <endpoint>: '<type>'
    object has no attribute 'get'"]. *)
Theorem non_object_answer_is_an_access_error (w : World) (term : str)
    (start_index size : Z) (type_filter : str)
    (breadcrumb_filter : list pyval) (resp : response)
    (response_json v : pyval) (tr : list event) :
  success_response w term start_index size type_filter breadcrumb_filter
                   resp response_json ->
  is_dict v = false ->
  response_json = v
  \/ (exists d, response_json = PDict d
                /\ Py.lookup (lit "hits") d = Some v) ->
  search w term start_index size type_filter breadcrumb_filter tr
  = (Return
       (envelope (lit "Error accessing "
                  ++ search_url (AuthManager.is_authenticated w)
                  ++ lit ": '" ++ Py.type_name v
                  ++ lit "' object has no attribute 'get'")),
     tr ++ search_events w
             (build_payload term start_index size type_filter
                            breadcrumb_filter) resp).
Proof.
  intros [Hg Hdb Hp Hc] Hv Hj.
  rewrite (@search_on_success w term start_index size type_filter
             breadcrumb_filter Hg Hdb resp Hp tr response_json Hc).
  assert (E : render_report w (AuthManager.is_authenticated w) term
                start_index response_json
              = Raise (mkExn AttributeError
                         (lit "'" ++ Py.type_name v
                          ++ lit "' object has no attribute 'get'"))).
  { unfold render_report.
    destruct Hj as [-> | (d & -> & Hd)].
    - destruct v; try discriminate Hv; reflexivity.
    - cbn [Py.get]. rewrite Hd. cbn [obind].
      destruct v; try discriminate Hv; reflexivity. }
  rewrite E. cbn [is_KeyError exn_cls exn_msg].
  change (lit ": '") with (lit ": " ++ lit "'").
  now rewrite <- !app_assoc.
Qed.

Lemma non_object_answer_is_an_access_error_witness :
  search (answering None (PList [])) (lit "cilium") 0 30 [] [] []
  = (Return
       (envelope (lit "Error accessing "
                  ++ search_url (AuthManager.is_authenticated
                                   (answering None (PList [])))
                  ++ lit ": '" ++ Py.type_name (PList [])
                  ++ lit "' object has no attribute 'get'")),
     [] ++ search_events (answering None (PList []))
             (build_payload (lit "cilium") 0 30 [] [])
             (json_response (PList []))).
Proof.
  refine (@non_object_answer_is_an_access_error
            (answering None (PList [])) (lit "cilium") 0%Z 30%Z [] []
            (json_response (PList [])) (PList []) (PList []) [] _ _ _).
  - apply answering_success;
      [right; discriminate | vm_compute; reflexivity..].
  - reflexivity.
  - left. reflexivity.
Defined.






(** ** The clauses of the query *)

(** X16: the clauses the query ANDs are, in this order, the base
    query, the [term] clause on [type] when a type filter is given, and
    the positional [match] clauses. *)
Theorem query_clauses_in_order (term type_filter : str)
    (breadcrumb_filter : list pyval) :
  and_clauses (build_query term type_filter breadcrumb_filter)
  = base_query term
    :: (if str_eqb type_filter [] then []
        else [d1 "term" (d1 "type" (PStr type_filter))])
    ++ map (fun fb : str * pyval => d1 "match" (PDict [(fst fb, snd fb)]))
           (combine (map breadcrumb_field
                         (seq 1 (length breadcrumb_filter)))
                    breadcrumb_filter).
Proof.
  unfold build_query. rewrite build_must_clauses_eq.
  destruct (1 <? _)%nat eqn:L; [reflexivity|].
  apply Nat.ltb_ge in L. cbn [length] in L.
  destruct (_ ++ _); [reflexivity | cbn [length] in L; lia].
Qed.

(** ** Normalizing twice, and what normalizing keeps *)

Lemma split_lines_line (l : str) : no_newline l -> split_lines l = [l].
Proof.
  induction l as [|c l IH]; [reflexivity|].
  intros H. simpl.
  destruct (N.eqb_spec c 10) as [->|Hc]; [exfalso; apply H; now left|].
  rewrite IH; [reflexivity|]. intros Hin. apply H. now right.
Qed.

Lemma split_lines_app_nl (l s : str) :
  no_newline l -> split_lines (l ++ nl ++ s) = l :: split_lines s.
Proof.
  induction l as [|c l IH]; [reflexivity|].
  intros H. simpl. simpl in IH.
  destruct (N.eqb_spec c 10) as [->|Hc]; [exfalso; apply H; now left|].
  rewrite IH; [reflexivity|]. intros Hin. apply H. now right.
Qed.

Lemma split_lines_no_newline (s : str) : Forall no_newline (split_lines s).
Proof.
  induction s as [|c s IH]; [repeat constructor; intros []|].
  simpl. destruct (N.eqb_spec c 10) as [->|Hc].
  - constructor; [intros []|exact IH].
  - destruct (split_lines s) as [|l ls]; [repeat constructor; intros [|[]]; auto|].
    inversion IH as [|? ? Hl Hls]; subst.
    constructor; [|exact Hls]. intros [E|Hin]; [auto | now apply Hl].
Qed.

Lemma split_lines_join (ls : list str) :
  ls <> [] -> Forall no_newline ls -> split_lines (join nl ls) = ls.
Proof.
  intros Hne H. induction H as [|l ls Hl Hls IH]; [congruence|].
  destruct ls as [|l2 ls].
  - now apply split_lines_line.
  - rewrite join_cons by discriminate.
    rewrite split_lines_app_nl by exact Hl.
    f_equal. apply IH. discriminate.
Qed.

Lemma rstrip_incl (l : str) : forall c, In c (rstrip l) -> In c l.
Proof.
  induction l as [|x l IH]; intros c; [tauto|].
  simpl. destruct (rstrip l) as [|y r].
  - destruct (isspace x); [intros [] | intros [->|[]]; now left].
  - intros [->|Hin]; [now left | right; apply IH, Hin].
Qed.

Lemma lstrip_incl (l : str) : forall c, In c (lstrip l) -> In c l.
Proof.
  induction l as [|x l IH]; intros c; [tauto|].
  simpl. destruct (isspace x); [right; now apply IH | tauto].
Qed.

Lemma lstrip_idem (l : str) : lstrip (lstrip l) = lstrip l.
Proof.
  induction l as [|x l IH]; [reflexivity|].
  simpl. destruct (isspace x) eqn:S; [exact IH|]. simpl. now rewrite S.
Qed.

Lemma lstrip_trimmed (l : str) : trimmed l -> trimmed (lstrip l).
Proof.
  unfold trimmed. induction l as [|x l IH]; [reflexivity|].
  intros H. simpl. destruct (isspace x) eqn:S; [|exact H].
  apply IH. simpl in H. rewrite S in H.
  destruct (rstrip l) as [|y r]; [discriminate H | now injection H].
Qed.

Lemma map_rstrip_trimmed (ls : list str) :
  Forall trimmed ls -> map rstrip ls = ls.
Proof.
  induction 1 as [|l ls Hl _ IH]; [reflexivity|].
  cbn [map]. now rewrite Hl, IH.
Qed.

Lemma collapse_fixed (ls : list str) :
  has_blank_run ls = false -> collapse_blank_runs ls = ls.
Proof.
  induction ls as [|l ls IH]; [reflexivity|].
  rewrite has_blank_run_cons. intros H.
  apply orb_false_iff in H. destruct H as [H1 H2].
  destruct l as [|c l].
  - destruct ls as [|[|c l2] ls]; [reflexivity | discriminate H1 |].
    change (collapse_blank_runs ([] :: (c :: l2) :: ls))
      with ([] :: collapse_blank_runs ((c :: l2) :: ls)).
    now rewrite (IH H2).
  - assert (E : collapse_blank_runs ((c :: l) :: ls)
                = (c :: l) :: collapse_blank_runs ls)
      by (destruct ls; reflexivity).
    now rewrite E, (IH H2).
Qed.

Lemma drop_trailing_blank_cons (l : str) (rest : list str) :
  drop_trailing_blank (l :: rest)
  = match drop_trailing_blank rest with
    | [] => if is_empty l then [] else [l]
    | rest' => l :: rest'
    end.
Proof. reflexivity. Qed.

Lemma drop_trailing_blank_fixed (ls : list str) :
  ends_blank ls = false -> drop_trailing_blank ls = ls.
Proof.
  induction ls as [|l ls IH]; [reflexivity|].
  destruct ls as [|l2 ls].
  - simpl. now intros ->.
  - intros H.
    change (ends_blank (l :: l2 :: ls)) with (ends_blank (l2 :: ls)) in H.
    rewrite drop_trailing_blank_cons, (IH H). reflexivity.
Qed.

Lemma drop_leading_blank_fixed (ls : list str) :
  starts_blank ls = false -> drop_leading_blank ls = ls.
Proof. destruct ls as [|[|c l] ls]; [reflexivity | discriminate | reflexivity]. Qed.

Lemma lstrip_head_Forall (P : str -> Prop) (ls : list str) :
  (forall l, P l -> P (lstrip l)) -> Forall P ls -> Forall P (lstrip_head ls).
Proof.
  intros HP H. destruct H as [|l ls Hl Hls]; [constructor|].
  constructor; [apply HP, Hl | exact Hls].
Qed.

Lemma normalized_lines_shape (md : str) :
  Forall trimmed (normalized_lines md)
  /\ Forall no_newline (normalized_lines md)
  /\ lstrip_head (normalized_lines md) = normalized_lines md.
Proof.
  unfold normalized_lines.
  set (ls := drop_leading_blank _).
  assert (Ht : Forall trimmed ls).
  { apply drop_leading_blank_Forall, drop_trailing_blank_Forall,
      collapse_Forall, trimmed_lines. }
  assert (Hn : Forall no_newline ls).
  { apply drop_leading_blank_Forall, drop_trailing_blank_Forall,
      collapse_Forall.
    apply Forall_map.
    eapply Forall_impl; [|apply split_lines_no_newline].
    intros l Hl Hin. apply Hl. now apply rstrip_incl. }
  repeat split.
  - apply lstrip_head_Forall; [apply lstrip_trimmed | exact Ht].
  - apply lstrip_head_Forall; [|exact Hn].
    intros l Hl Hin. apply Hl. now apply lstrip_incl.
  - destruct ls as [|l r]; [reflexivity|].
    cbn [lstrip_head]. now rewrite lstrip_idem.
Qed.

Lemma normalized_lines_fixed (md : str) :
  normalized_lines md <> [] ->
  normalized_lines (join nl (normalized_lines md)) = normalized_lines md.
Proof.
  intros Hne.
  destruct (normalized_lines_shape md) as (Ht & Hn & Hl).
  destruct (normalized_lines_blanks md) as (Hr & Hs & He).
  unfold normalized_lines at 1.
  rewrite (@split_lines_join _ Hne Hn), (@map_rstrip_trimmed _ Ht),
    (@collapse_fixed _ Hr), (@drop_trailing_blank_fixed _ He),
    (@drop_leading_blank_fixed _ Hs).
  exact Hl.
Qed.

(** X17: normalizing is idempotent: the text of a page, normalized
    again, is unchanged. *)
Theorem clean_markdown_idempotent (markdown_content : str) :
  clean_markdown (clean_markdown markdown_content)
  = clean_markdown markdown_content.
Proof.
  rewrite (clean_markdown_normalized markdown_content).
  destruct (normalized_lines markdown_content) as [|l ls] eqn:E.
  - reflexivity.
  - rewrite clean_markdown_normalized, <- E.
    rewrite normalized_lines_fixed; [reflexivity|].
    rewrite E. discriminate.
Qed.

Lemma filter_lstrip_head (ls : list str) :
  Forall trimmed ls -> starts_blank ls = false ->
  filter nonblank (lstrip_head ls) = lstrip_head (filter nonblank ls).
Proof.
  intros H Hs. destruct H as [|l ls Hl _]; [reflexivity|].
  cbn [starts_blank] in Hs.
  assert (E1 : nonblank l = true) by (unfold nonblank; now rewrite Hs).
  assert (E2 : nonblank (lstrip l) = true)
    by (unfold nonblank; now rewrite (@lstrip_trimmed_empty l Hl), Hs).
  cbn [lstrip_head filter]. now rewrite E1, E2.
Qed.

(** X18: normalizing loses no content and does not reorder it: the
    non-blank lines of the normalized text are the non-blank lines of
    the converted text, right-trimmed, in their order, the first of
    them also left-trimmed. *)
Theorem clean_markdown_keeps_content (markdown_content : str) :
  filter nonblank (split_lines (clean_markdown markdown_content))
  = lstrip_head
      (filter nonblank (map rstrip (split_lines markdown_content))).
Proof.
  rewrite clean_markdown_normalized.
  assert (E : filter nonblank
                (split_lines (join nl (normalized_lines markdown_content)))
              = filter nonblank (normalized_lines markdown_content)).
  { destruct (normalized_lines markdown_content) as [|l ls] eqn:El;
      [reflexivity|].
    rewrite <- El, split_lines_join; [reflexivity | rewrite El; discriminate|].
    apply normalized_lines_shape. }
  rewrite E. unfold normalized_lines.
  rewrite filter_lstrip_head.
  - now rewrite drop_leading_keeps_nonblank, drop_trailing_keeps_nonblank,
      collapse_keeps_nonblank.
  - apply drop_leading_blank_Forall, drop_trailing_blank_Forall,
      collapse_Forall, trimmed_lines.
  - apply drop_leading_blank_starts.
Qed.
